(** * Push/pull reconciliation of yorkie/packs/pushpull.go

    A shallow embedding of [pushChanges], [pullPack], [pullChangeInfos] and
    [pullSnapshot], with the value types they consume, followed by the
    properties of the synchronisation core stated over that embedding.

    Unsigned 64-bit counters are integers in [Z] with the wrap-around of Go's
    uint64 arithmetic written out.  Go slices are lists, the nil slice being
    the empty list (the code never compares a slice with nil, it only takes
    its length, ranges over it and appends to it). *)

From stdpp Require Import gmap strings list sorting.
From Stdlib Require Import ZArith Lia Strings.Byte.

Local Open Scope Z_scope.

(** ** Machine integers *)

Definition uint64_modulus : Z := 2 ^ 64.

Definition wrap64 (z : Z) : Z := z mod uint64_modulus.

Definition add64 (a b : Z) : Z := wrap64 (a + b).

Definition sub64 (a b : Z) : Z := wrap64 (a - b).

Definition is_uint64 (z : Z) : Prop := 0 <= z < uint64_modulus.

(** ** Value types of the packages the file imports *)

(** Modelled from the spec: change.Checkpoint is not under src/.  The spec
    gives it as the pair (clientSeq, serverSeq); NextServerSeq returns a copy
    with serverSeq replaced, SyncClientSeq a copy with clientSeq raised to the
    maximum of the current value and the argument. *)
Module Checkpoint.
Record t : Type := mk { ClientSeq : Z; ServerSeq : Z }.

Definition Initial : t := mk 0 0.

Definition NextServerSeq (cp : t) (serverSeq : Z) : t :=
  mk (ClientSeq cp) serverSeq.

Definition SyncClientSeq (cp : t) (clientSeq : Z) : t :=
  mk (Z.max (ClientSeq cp) clientSeq) (ServerSeq cp).
End Checkpoint.

(** Modelled from the spec: change.Change is not under src/.  A change
    carries the client-assigned sequence number (read by both cn.ID().ClientSeq()
    and cn.ClientSeq()) and the server-assigned one, unset until the push
    stage accepts the change; the edit itself is carried as a message. *)
Module Change.
Record t : Type := mk { ClientSeq : Z; Message : string; ServerSeq : option Z }.

Definition SetServerSeq (cn : t) (serverSeq : Z) : t :=
  mk (ClientSeq cn) (Message cn) (Some serverSeq).
End Change.

(** Modelled from the spec: db.DocInfo is not under src/.  It owns the
    document's server sequence counter; IncreaseServerSeq is its sole
    mutator, an increment of a uint64 that returns the new value.  The
    in-place update of the Go object is the first component of the result. *)
Module DocInfo.
Record t : Type := mk { ID : string; CombinedKey : string; ServerSeq : Z }.

Definition IncreaseServerSeq (info : t) : t * Z :=
  let next := add64 (ServerSeq info) 1 in
  (mk (ID info) (CombinedKey info) next, next).
End DocInfo.

(** Modelled from the spec: db.ClientInfo is not under src/.  It owns one
    checkpoint per attached document, looked up by document ID; a document
    the client has no entry for reads as the initial checkpoint. *)
Module ClientInfo.
Record t : Type := mk { ID : string; Documents : gmap string Checkpoint.t }.

Definition Checkpoint (info : t) (docID : string) : Checkpoint.t :=
  default Checkpoint.Initial (Documents info !! docID).
End ClientInfo.

(** Modelled from the spec: key.Key, change.Pack, db.ChangeInfo,
    db.SnapshotInfo and packs.ServerPack are declared outside src/. *)
Definition Key : Type := string.

Module Pack.
Record t : Type := mk {
  DocumentKey : Key;
  Checkpoint : Checkpoint.t;
  Changes : list Change.t;
  Snapshot : list byte
}.
End Pack.

Module ChangeInfo.
Record t : Type := mk { ServerSeq : Z; ClientSeq : Z; Message : string }.
End ChangeInfo.

Module SnapshotInfo.
Record t : Type := mk { ServerSeq : Z; Snapshot : list byte }.
End SnapshotInfo.

Module ServerPack.
Record t : Type := mk {
  DocumentKey : Key;
  Checkpoint : Checkpoint.t;
  ChangeInfos : list ChangeInfo.t;
  Snapshot : list byte
}.
End ServerPack.

Definition NewServerPack (key : Key) (cp : Checkpoint.t)
    (changeInfos : list ChangeInfo.t) (snapshot : list byte) : ServerPack.t :=
  ServerPack.mk key cp changeInfos snapshot.

(** ** Errors *)

(** [ErrInvalidServerSeq] is the sentinel of the file; [Errorf_serverSeq]
    is the fmt.Errorf of [pullPack], which formats the two sequence numbers
    and wraps its last argument with %w; [ErrExternal] stands for whatever
    a collaborator returns. *)
Inductive error : Type :=
  | ErrInvalidServerSeq
  | ErrExternal (msg : string)
  | Errorf_serverSeq (clientInfoSeq cpSeq : Z) (wrapped : error).

Fixpoint errors_Is (err target : error) : bool :=
  match err, target with
  | ErrInvalidServerSeq, ErrInvalidServerSeq => true
  | ErrExternal a, ErrExternal b => bool_decide (a = b)
  | Errorf_serverSeq _ _ inner, _ => errors_Is inner target
  | _, _ => false
  end.

(** ** What the functions make observable: log lines and collaborator calls *)

Inductive LogLine : Type :=
  | Warnf_alreadyPushed (clientSeq cpClientSeq : Z)
  | Infof_PUSH (clientID : string) (pushed : nat) (combinedKey : string)
      (rejected : Z) (initialServerSeq docServerSeq : Z) (cp : Checkpoint.t)
  | Infof_PULL_changes (clientID : string) (pulled : nat) (first last : Z)
      (combinedKey : string) (cp : Checkpoint.t)
  | Infof_PULL_snapshot_without_changes (clientID combinedKey : string)
      (cp : Checkpoint.t)
  | Debugf_after_apply (changes : nat)
  | Infof_PULL_snapshot_with_changes (clientID : string) (from to : Z)
      (combinedKey : string) (cp : Checkpoint.t).

Inductive Call : Type :=
  | CallFindChangeInfosBetweenServerSeqs (docID : string) (from to : Z)
  | CallFindLastSnapshotInfo (docID : string)
  | CallFindChangesBetweenServerSeqs (docID : string) (from to : Z)
  | CallNewInternalDocumentFromSnapshot (key : Key) (serverSeq : Z)
      (snapshot : list byte)
  | CallApplyChangePack (pack : Pack.t)
  | CallObjectToBytes.

Inductive Event : Type :=
  | Logged (line : LogLine)
  | Called (call : Call).

(** ** Push stage *)

(** The state the loop of [pushChanges] carries from one change to the next:
    the running checkpoint, the document record (mutated by
    IncreaseServerSeq), the accepted list, the request's changes as the loop
    leaves them (SetServerSeq writes through the pointer, so the request
    slice sees the stamp too) and the lines logged so far. *)
Record PushState : Type := mkPushState {
  ps_cp : Checkpoint.t;
  ps_docInfo : DocInfo.t;
  ps_pushedChanges : list Change.t;
  ps_visited : list Change.t;
  ps_log : list Event
}.

(** One iteration of the [for _, cn := range reqPack.Changes] loop. *)
Definition pushChange (st : PushState) (cn : Change.t) : PushState :=
  if Checkpoint.ClientSeq (ps_cp st) <? Change.ClientSeq cn then
    let '(docInfo, serverSeq) := DocInfo.IncreaseServerSeq (ps_docInfo st) in
    let cp := Checkpoint.NextServerSeq (ps_cp st) serverSeq in
    let cn := Change.SetServerSeq cn serverSeq in
    mkPushState
      (Checkpoint.SyncClientSeq cp (Change.ClientSeq cn))
      docInfo
      (ps_pushedChanges st ++ [cn])
      (ps_visited st ++ [cn])
      (ps_log st)
  else
    mkPushState
      (Checkpoint.SyncClientSeq (ps_cp st) (Change.ClientSeq cn))
      (ps_docInfo st)
      (ps_pushedChanges st)
      (ps_visited st ++ [cn])
      (ps_log st ++ [Logged (Warnf_alreadyPushed (Change.ClientSeq cn)
                               (Checkpoint.ClientSeq (ps_cp st)))]).

Definition pushLoop (st : PushState) (changes : list Change.t) : PushState :=
  fold_left pushChange changes st.

Definition pushInit (clientInfo : ClientInfo.t) (docInfo : DocInfo.t) : PushState :=
  mkPushState (ClientInfo.Checkpoint clientInfo (DocInfo.ID docInfo))
    docInfo [] [] [].

(** What a call of [pushChanges] returns and leaves behind: the two return
    values, then the document record and the request's changes after the
    call, then the log. *)
Record PushResult : Type := mkPushResult {
  pr_cp : Checkpoint.t;
  pr_pushedChanges : list Change.t;
  pr_docInfo : DocInfo.t;
  pr_reqChanges : list Change.t;
  pr_log : list Event
}.

(** [pushChanges] (pushpull.go, lines 41-82).  The context argument only
    carries the logger and is left out; the PUSH line is logged when the
    request has changes. *)
Definition pushChanges (clientInfo : ClientInfo.t) (docInfo : DocInfo.t)
    (reqPack : Pack.t) (initialServerSeq : Z) : PushResult :=
  let st := pushLoop (pushInit clientInfo docInfo) (Pack.Changes reqPack) in
  let log :=
    if (0 <? length (Pack.Changes reqPack))%nat then
      ps_log st ++
      [Logged (Infof_PUSH
        (ClientInfo.ID clientInfo)
        (length (ps_pushedChanges st))
        (DocInfo.CombinedKey docInfo)
        (Z.of_nat (length (Pack.Changes reqPack))
           - Z.of_nat (length (ps_pushedChanges st)))
        initialServerSeq
        (DocInfo.ServerSeq (ps_docInfo st))
        (ps_cp st))]
    else ps_log st in
  mkPushResult (ps_cp st) (ps_pushedChanges st) (ps_docInfo st)
    (ps_visited st) log.

(** ** Collaborators of the pull stage *)

(** Modelled from the spec: the db.DB interface behind [be.DB] is declared
    outside src/.  Its three queries are reads of the store, so each is a
    function of its arguments that returns the rows or an error. *)
Module DB.
Record t : Type := mk {
  FindChangeInfosBetweenServerSeqs :
    string -> Z -> Z -> error + list ChangeInfo.t;
  FindLastSnapshotInfo : string -> error + SnapshotInfo.t;
  FindChangesBetweenServerSeqs : string -> Z -> Z -> error + list Change.t
}.
End DB.

Module Backend.
Record t : Type := mk { SnapshotThreshold : Z; DB : DB.t }.
End Backend.

(** ** The monad of the pull stage: a trace of events and a result or an error *)

Definition M (A : Type) : Type := (list Event * (error + A))%type.

Definition ret {A : Type} (a : A) : M A := ([], inr a).

Definition fail {A : Type} (e : error) : M A := ([], inl e).

Definition bind {A B : Type} (m : M A) (k : A -> M B) : M B :=
  match m with
  | (tr, inl e) => (tr, inl e)
  | (tr, inr a) => let '(tr', r) := k a in (tr ++ tr', r)
  end.

Definition emit (line : LogLine) : M unit := ([Logged line], inr tt).

Definition call {A : Type} (c : Call) (r : error + A) : M A := ([Called c], r).

Definition lift {A : Type} (r : error + A) : M A := ([], r).

Notation "'let*' x ':=' m 'in' k" := (bind m (fun x => k))
  (at level 10, x pattern, m at level 100, k at level 200).

Definition trace {A : Type} (m : M A) : list Event := fst m.

Definition outcome {A : Type} (m : M A) : error + A := snd m.

(** ** Pull stage *)

Section Pull.

(** The document package, the converter and the two accessors the pull
    stage reads are outside src/ and are taken as parameters:
    [DocInfo_Key] is docInfo.Key(), [logging_Enabled_Debug] is
    logging.Enabled(zap.DebugLevel); applying a pack mutates the document
    in place, which is the document [ApplyChangePack] returns. *)
Variable InternalDocument : Type.
Variable DocInfo_Key : DocInfo.t -> error + Key.
Variable NewInternalDocumentFromSnapshot :
  Key -> Z -> list byte -> error + InternalDocument.
Variable ApplyChangePack : InternalDocument -> Pack.t -> error + InternalDocument.
Variable ObjectToBytes : InternalDocument -> error + list byte.
Variable logging_Enabled_Debug : bool.

(** [pullChangeInfos] (lines 125-159): one range query, the checkpoint
    moved to docInfo.ServerSeq, a PULL line when rows came back. *)
Definition pullChangeInfos (be : Backend.t) (clientInfo : ClientInfo.t)
    (docInfo : DocInfo.t) (reqPack : Pack.t) (cpAfterPush : Checkpoint.t)
    (initialServerSeq : Z) : M (Checkpoint.t * list ChangeInfo.t) :=
  let from := add64 (Checkpoint.ServerSeq (Pack.Checkpoint reqPack)) 1 in
  let* pulledChanges :=
    call (CallFindChangeInfosBetweenServerSeqs (DocInfo.ID docInfo) from
            initialServerSeq)
         (DB.FindChangeInfosBetweenServerSeqs (Backend.DB be)
            (DocInfo.ID docInfo) from initialServerSeq) in
  let cpAfterPull :=
    Checkpoint.NextServerSeq cpAfterPush (DocInfo.ServerSeq docInfo) in
  let* _ :=
    match pulledChanges with
    | [] => ret tt
    | first :: _ =>
        emit (Infof_PULL_changes
                (ClientInfo.ID clientInfo)
                (length pulledChanges)
                (ChangeInfo.ServerSeq first)
                (ChangeInfo.ServerSeq (List.last pulledChanges first))
                (DocInfo.CombinedKey docInfo)
                cpAfterPull)
    end in
  ret (cpAfterPull, pulledChanges).

(** [pullSnapshot] (lines 161-249): the stored snapshot as it is when it
    is at or past initialServerSeq, otherwise a document rebuilt from it by
    replaying the changes up to initialServerSeq and serialised again. *)
Definition pullSnapshot (be : Backend.t) (clientInfo : ClientInfo.t)
    (docInfo : DocInfo.t) (pack : Pack.t) (pushedCP : Checkpoint.t)
    (initialServerSeq : Z) : M (Checkpoint.t * list byte) :=
  let* snapshotInfo :=
    call (CallFindLastSnapshotInfo (DocInfo.ID docInfo))
         (DB.FindLastSnapshotInfo (Backend.DB be) (DocInfo.ID docInfo)) in
  if initialServerSeq <=? SnapshotInfo.ServerSeq snapshotInfo then
    let pulledCP :=
      Checkpoint.NextServerSeq pushedCP (DocInfo.ServerSeq docInfo) in
    let* _ :=
      emit (Infof_PULL_snapshot_without_changes
              (ClientInfo.ID clientInfo) (DocInfo.CombinedKey docInfo)
              pulledCP) in
    ret (Checkpoint.NextServerSeq pushedCP (DocInfo.ServerSeq docInfo),
         SnapshotInfo.Snapshot snapshotInfo)
  else
    let* docKey := lift (DocInfo_Key docInfo) in
    let* doc :=
      call (CallNewInternalDocumentFromSnapshot docKey
              (SnapshotInfo.ServerSeq snapshotInfo)
              (SnapshotInfo.Snapshot snapshotInfo))
           (NewInternalDocumentFromSnapshot docKey
              (SnapshotInfo.ServerSeq snapshotInfo)
              (SnapshotInfo.Snapshot snapshotInfo)) in
    let from := add64 (SnapshotInfo.ServerSeq snapshotInfo) 1 in
    let* changes :=
      call (CallFindChangesBetweenServerSeqs (DocInfo.ID docInfo) from
              initialServerSeq)
           (DB.FindChangesBetweenServerSeqs (Backend.DB be)
              (DocInfo.ID docInfo) from initialServerSeq) in
    let replay :=
      Pack.mk docKey
        (Checkpoint.NextServerSeq Checkpoint.Initial (DocInfo.ServerSeq docInfo))
        changes [] in
    let* doc := call (CallApplyChangePack replay) (ApplyChangePack doc replay) in
    let* _ :=
      if logging_Enabled_Debug
      then emit (Debugf_after_apply (length (Pack.Changes pack)))
      else ret tt in
    let pulledCP :=
      Checkpoint.NextServerSeq pushedCP (DocInfo.ServerSeq docInfo) in
    let* _ :=
      emit (Infof_PULL_snapshot_with_changes
              (ClientInfo.ID clientInfo)
              (add64 (Checkpoint.ServerSeq (Pack.Checkpoint pack)) 1)
              initialServerSeq
              (DocInfo.CombinedKey docInfo)
              pulledCP) in
    let* snapshot := call CallObjectToBytes (ObjectToBytes doc) in
    ret (pulledCP, snapshot).

(** [pullPack] (lines 84-123): the key, the check of the request's
    serverSeq, then the choice between the two pulls on the unsigned
    difference. *)
Definition pullPack (be : Backend.t) (clientInfo : ClientInfo.t)
    (docInfo : DocInfo.t) (reqPack : Pack.t) (pushedCP : Checkpoint.t)
    (initialServerSeq : Z) : M ServerPack.t :=
  let* docKey := lift (DocInfo_Key docInfo) in
  if initialServerSeq <? Checkpoint.ServerSeq (Pack.Checkpoint reqPack) then
    fail (Errorf_serverSeq initialServerSeq
            (Checkpoint.ServerSeq (Pack.Checkpoint reqPack))
            ErrInvalidServerSeq)
  else if sub64 initialServerSeq (Checkpoint.ServerSeq (Pack.Checkpoint reqPack))
            <? Backend.SnapshotThreshold be then
    let* (cpAfterPull, pulledChanges) :=
      pullChangeInfos be clientInfo docInfo reqPack pushedCP initialServerSeq in
    ret (NewServerPack docKey cpAfterPull pulledChanges [])
  else
    let* (cpAfterPull, snapshot) :=
      pullSnapshot be clientInfo docInfo reqPack pushedCP initialServerSeq in
    ret (NewServerPack docKey cpAfterPull [] snapshot).

End Pull.

Arguments pullSnapshot {InternalDocument} _ _ _ _ _ _ _ _ _ _ _.
Arguments pullPack {InternalDocument} _ _ _ _ _ _ _ _ _ _ _.

(** ** Vocabulary of the properties *)

(** Which pull a trace shows: the first store query made is the range query
    of [pullChangeInfos] on the incremental path and the snapshot lookup of
    [pullSnapshot] on the snapshot path. *)
Inductive PullPath : Type := Incremental | SnapshotPath.

Fixpoint takenPath (tr : list Event) : option PullPath :=
  match tr with
  | [] => None
  | Called (CallFindChangeInfosBetweenServerSeqs _ _ _) :: _ => Some Incremental
  | Called (CallFindLastSnapshotInfo _) :: _ => Some SnapshotPath
  | _ :: rest => takenPath rest
  end.

(** The calls that make up a reconstruction: instantiating a document from
    a snapshot, fetching a change range, replaying it, serialising. *)
Definition isReconstruction (ev : Event) : bool :=
  match ev with
  | Called (CallNewInternalDocumentFromSnapshot _ _ _) => true
  | Called (CallFindChangesBetweenServerSeqs _ _ _) => true
  | Called (CallFindChangeInfosBetweenServerSeqs _ _ _) => true
  | Called (CallApplyChangePack _) => true
  | Called CallObjectToBytes => true
  | _ => false
  end.

(** A payload field of a pack is populated when it holds at least one
    element. *)
Definition populated {A : Type} (l : list A) : bool :=
  match l with
  | [] => false
  | _ :: _ => true
  end.

Definition exactlyOnePopulated (pack : ServerPack.t) : bool :=
  xorb (populated (ServerPack.ChangeInfos pack))
       (populated (ServerPack.Snapshot pack)).

Definition bothPopulated (pack : ServerPack.t) : bool :=
  populated (ServerPack.ChangeInfos pack) && populated (ServerPack.Snapshot pack).

(** The largest client sequence number of a batch; an empty batch has none. *)
Definition maxClientSeq (changes : list Change.t) : option Z :=
  match changes with
  | [] => None
  | cn :: rest => Some (fold_left Z.max (Change.ClientSeq <$> rest) (Change.ClientSeq cn))
  end.

(** The server sequence number stamped on the last accepted change. *)
Definition lastAssigned (pushedChanges : list Change.t) : option Z :=
  last pushedChanges ≫= Change.ServerSeq.

(** The changes of a batch that are new to a client whose highest known
    client sequence number is [known]: those whose client sequence number
    exceeds [known] and every client sequence number before them in the
    batch, kept in the order of the batch. *)
Fixpoint acceptedChanges (known : Z) (changes : list Change.t) : list Change.t :=
  match changes with
  | [] => []
  | cn :: rest =>
      if known <? Change.ClientSeq cn
      then cn :: acceptedChanges (Z.max known (Change.ClientSeq cn)) rest
      else acceptedChanges (Z.max known (Change.ClientSeq cn)) rest
  end.

(** Stamping a list of changes with consecutive values of the counter,
    starting after [counter]. *)
Fixpoint stampFrom (counter : Z) (changes : list Change.t) : list Change.t :=
  match changes with
  | [] => []
  | cn :: rest =>
      Change.SetServerSeq cn (add64 counter 1) :: stampFrom (add64 counter 1) rest
  end.

(** The counter after [n] increments. *)
Fixpoint counterAfter (counter : Z) (n : nat) : Z :=
  match n with
  | O => counter
  | S n' => counterAfter (add64 counter 1) n'
  end.

(** What the loop of the push stage computes with: the checkpoint, the
    document record and the accepted list (the rest of the state is the
    request slice and the log, which the loop only writes). *)
Definition core (st : PushState) : Checkpoint.t * DocInfo.t * list Change.t :=
  (ps_cp st, ps_docInfo st, ps_pushedChanges st).

Definition withChanges (pack : Pack.t) (changes : list Change.t) : Pack.t :=
  Pack.mk (Pack.DocumentKey pack) (Pack.Checkpoint pack) changes (Pack.Snapshot pack).

(** ** A concrete store and document, for running the functions *)

Module Fixture.

Definition between (from to seq : Z) : bool := (from <=? seq) && (seq <=? to).

(** Modelled from the spec: a store that holds the rows it is given and
    answers a range query with the rows whose server sequence lies in the
    closed range, in stored order, and the snapshot lookup with the one
    snapshot it holds; an empty range gives the empty list, not an error. *)
Definition memoryDB (infos : list ChangeInfo.t) (changes : list Change.t)
    (snapshot : SnapshotInfo.t) : DB.t :=
  DB.mk
    (fun _ from to =>
       inr (List.filter (fun ci => between from to (ChangeInfo.ServerSeq ci)) infos))
    (fun _ => inr snapshot)
    (fun _ from to =>
       inr (List.filter
              (fun cn => match Change.ServerSeq cn with
                         | Some seq => between from to seq
                         | None => false
                         end) changes)).

(** A document whose state is the bytes of its snapshot followed by one
    byte per replayed change. *)
Definition Doc : Type := list byte.
Definition keyOf (docInfo : DocInfo.t) : error + Key := inr (DocInfo.CombinedKey docInfo).
Definition fromSnapshot (_ : Key) (_ : Z) (snapshot : list byte) : error + Doc :=
  inr snapshot.
Definition apply (doc : Doc) (pack : Pack.t) : error + Doc :=
  inr (doc ++ ((fun _ => x01) <$> Pack.Changes pack)).
Definition toBytes (doc : Doc) : error + list byte := inr doc.

Definition pullPack := pullPack keyOf fromSnapshot apply toBytes false.
Definition pullSnapshot := pullSnapshot keyOf fromSnapshot apply toBytes false.

Definition docID : string := "doc-1".
Definition doc (serverSeq : Z) : DocInfo.t := DocInfo.mk docID "notes$doc-1" serverSeq.
Definition client (cp : Checkpoint.t) : ClientInfo.t :=
  ClientInfo.mk "client-A" {[ docID := cp ]}.
Definition change (clientSeq : Z) : Change.t := Change.mk clientSeq "edit" None.
Definition request (cp : Checkpoint.t) (clientSeqs : list Z) : Pack.t :=
  Pack.mk "notes$doc-1" cp (change <$> clientSeqs) [].
Definition row (serverSeq : Z) : ChangeInfo.t := ChangeInfo.mk serverSeq serverSeq "edit".
Definition stored (serverSeq : Z) : Change.t := Change.mk serverSeq "edit" (Some serverSeq).

(** A store holding the changes 1..5 and a snapshot taken at 2. *)
Definition backend (threshold : Z) : Backend.t :=
  Backend.mk threshold
    (memoryDB (row <$> [1; 2; 3; 4; 5]) (stored <$> [1; 2; 3; 4; 5])
       (SnapshotInfo.mk 2 [x0a; x0b])).

(** A store of a fresh document: no change, an empty snapshot at 0. *)
Definition emptyBackend (threshold : Z) : Backend.t :=
  Backend.mk threshold (memoryDB [] [] (SnapshotInfo.mk 0 [])).

End Fixture.

(** ** Vocabulary of the properties of the log and of the request slice *)

Definition isWarning (ev : Event) : bool :=
  match ev with
  | Logged (Warnf_alreadyPushed _ _) => true
  | _ => false
  end.

(** The line the loop of [pushChanges] logs for a change it drops while the
    running checkpoint is [cp]. *)
Definition warningFor (cp : Checkpoint.t) (cn : Change.t) : Event :=
  Logged (Warnf_alreadyPushed (Change.ClientSeq cn) (Checkpoint.ClientSeq cp)).

(** A loop state with lists put in front of its accepted list, of the
    request changes it has visited and of its log. *)
Definition prepend (pushed visited : list Change.t) (log : list Event)
    (st : PushState) : PushState :=
  mkPushState (ps_cp st) (ps_docInfo st)
    (pushed ++ ps_pushedChanges st) (visited ++ ps_visited st) (log ++ ps_log st).

(** How the push stage may leave a change of the request: as it was, or
    with a server sequence number stamped on it. *)
Definition stampedOrSame (cn cn' : Change.t) : Prop :=
  cn' = cn \/ exists serverSeq, cn' = Change.SetServerSeq cn serverSeq.

(** * Properties *)

(** ** Machine arithmetic *)

Lemma wrap64_small (z : Z) : is_uint64 z -> wrap64 z = z.
Proof. intros H. unfold wrap64. apply Z.mod_small. exact H. Qed.

Lemma add64_succ (s : Z) : 0 <= s -> s + 1 < uint64_modulus -> add64 s 1 = s + 1.
Proof. intros H0 H1. unfold add64. apply wrap64_small. unfold is_uint64. lia. Qed.

Lemma sub64_ordered (a b : Z) :
  is_uint64 a -> is_uint64 b -> b <= a -> sub64 a b = a - b.
Proof.
  unfold is_uint64. intros Ha Hb Hle. unfold sub64. apply wrap64_small.
  unfold is_uint64. lia.
Qed.

Lemma fold_max_init_le (l : list Z) (a : Z) : a <= fold_left Z.max l a.
Proof.
  revert a. induction l as [|x l IH]; intros a; simpl; [lia|].
  specialize (IH (Z.max a x)). lia.
Qed.

Lemma fold_max_shift (l : list Z) (a b : Z) :
  fold_left Z.max l (Z.max a b) = Z.max a (fold_left Z.max l b).
Proof.
  revert b. induction l as [|x l IH]; intros b; simpl; [reflexivity|].
  rewrite <- IH. f_equal. lia.
Qed.

(** ** The loop of the push stage *)

Lemma pushLoop_app (st : PushState) (l1 l2 : list Change.t) :
  pushLoop st (l1 ++ l2) = pushLoop (pushLoop st l1) l2.
Proof. unfold pushLoop. apply fold_left_app. Qed.

Lemma pushLoop_cons (st : PushState) (cn : Change.t) (l : list Change.t) :
  pushLoop st (cn :: l) = pushLoop (pushChange st cn) l.
Proof. reflexivity. Qed.

(** An invariant of every iteration is an invariant of the loop. *)
Lemma pushLoop_invariant (P : PushState -> Prop) :
  (forall st cn, P st -> P (pushChange st cn)) ->
  forall changes st, P st -> P (pushLoop st changes).
Proof.
  intros Hstep changes. induction changes as [|cn rest IH]; intros st Hst.
  - exact Hst.
  - rewrite pushLoop_cons. apply IH, Hstep, Hst.
Qed.

Lemma pushChange_new (st : PushState) (cn : Change.t) :
  Checkpoint.ClientSeq (ps_cp st) < Change.ClientSeq cn ->
  let serverSeq := add64 (DocInfo.ServerSeq (ps_docInfo st)) 1 in
  pushChange st cn =
    mkPushState
      (Checkpoint.mk (Change.ClientSeq cn) serverSeq)
      (DocInfo.mk (DocInfo.ID (ps_docInfo st))
         (DocInfo.CombinedKey (ps_docInfo st)) serverSeq)
      (ps_pushedChanges st ++ [Change.SetServerSeq cn serverSeq])
      (ps_visited st ++ [Change.SetServerSeq cn serverSeq])
      (ps_log st).
Proof.
  intros Hlt. unfold pushChange.
  destruct (Z.ltb_spec (Checkpoint.ClientSeq (ps_cp st)) (Change.ClientSeq cn)) as [_|Hge];
    [|lia].
  simpl. unfold Checkpoint.SyncClientSeq, Checkpoint.NextServerSeq. simpl.
  rewrite Z.max_r by lia. reflexivity.
Qed.

Lemma pushChange_known (st : PushState) (cn : Change.t) :
  Change.ClientSeq cn <= Checkpoint.ClientSeq (ps_cp st) ->
  pushChange st cn =
    mkPushState (ps_cp st) (ps_docInfo st) (ps_pushedChanges st)
      (ps_visited st ++ [cn])
      (ps_log st ++ [Logged (Warnf_alreadyPushed (Change.ClientSeq cn)
                               (Checkpoint.ClientSeq (ps_cp st)))]).
Proof.
  intros Hle. unfold pushChange.
  destruct (Z.ltb_spec (Checkpoint.ClientSeq (ps_cp st)) (Change.ClientSeq cn)) as [Hlt|_];
    [lia|].
  unfold Checkpoint.SyncClientSeq. rewrite Z.max_l by lia.
  destruct (ps_cp st); reflexivity.
Qed.

Lemma pushChange_clientSeq (st : PushState) (cn : Change.t) :
  Checkpoint.ClientSeq (ps_cp (pushChange st cn)) =
  Z.max (Checkpoint.ClientSeq (ps_cp st)) (Change.ClientSeq cn).
Proof.
  unfold pushChange.
  destruct (Checkpoint.ClientSeq (ps_cp st) <? Change.ClientSeq cn); reflexivity.
Qed.

Lemma pushLoop_clientSeq (changes : list Change.t) (st : PushState) :
  Checkpoint.ClientSeq (ps_cp (pushLoop st changes)) =
  fold_left Z.max (Change.ClientSeq <$> changes) (Checkpoint.ClientSeq (ps_cp st)).
Proof.
  revert st. induction changes as [|cn rest IH]; intros st; [reflexivity|].
  rewrite pushLoop_cons, IH, pushChange_clientSeq. reflexivity.
Qed.

Lemma pushLoop_clientSeq_mono (changes : list Change.t) (st : PushState) :
  Checkpoint.ClientSeq (ps_cp st) <= Checkpoint.ClientSeq (ps_cp (pushLoop st changes)).
Proof. rewrite pushLoop_clientSeq. apply fold_max_init_le. Qed.

Lemma pushLoop_visited (changes : list Change.t) (st : PushState) :
  exists seen, ps_visited (pushLoop st changes) = ps_visited st ++ seen
               /\ length seen = length changes.
Proof.
  revert st. induction changes as [|cn rest IH]; intros st.
  - exists []. simpl. rewrite app_nil_r. split; reflexivity.
  - rewrite pushLoop_cons. destruct (IH (pushChange st cn)) as (seen & Heq & Hlen).
    assert (Hone : exists cn', ps_visited (pushChange st cn) = ps_visited st ++ [cn']).
    { unfold pushChange.
      destruct (Checkpoint.ClientSeq (ps_cp st) <? Change.ClientSeq cn);
        simpl; eexists; reflexivity. }
    destruct Hone as (cn' & Hone). exists (cn' :: seen). split.
    + rewrite Heq, Hone, <- app_assoc. reflexivity.
    + simpl. rewrite Hlen. reflexivity.
Qed.

Lemma stampFrom_length (counter : Z) (changes : list Change.t) :
  length (stampFrom counter changes) = length changes.
Proof.
  revert counter. induction changes as [|cn rest IH]; intros counter; simpl;
    [reflexivity|]. rewrite IH. reflexivity.
Qed.

(** What the loop appends to the accepted list and where it leaves the
    counter, wrap-around included. *)
Lemma pushLoop_pushed (changes : list Change.t) (st : PushState) :
  let accepted := acceptedChanges (Checkpoint.ClientSeq (ps_cp st)) changes in
  ps_pushedChanges (pushLoop st changes) =
    ps_pushedChanges st ++ stampFrom (DocInfo.ServerSeq (ps_docInfo st)) accepted
  /\ ps_docInfo (pushLoop st changes) =
       DocInfo.mk (DocInfo.ID (ps_docInfo st)) (DocInfo.CombinedKey (ps_docInfo st))
         (counterAfter (DocInfo.ServerSeq (ps_docInfo st)) (length accepted)).
Proof.
  revert st. induction changes as [|cn rest IH]; intros st; simpl.
  - rewrite app_nil_r. split; [reflexivity|]. destruct (ps_docInfo st); reflexivity.
  - change (fold_left pushChange rest (pushChange st cn))
      with (pushLoop (pushChange st cn) rest).
    destruct (IH (pushChange st cn)) as [Hp Hd]. rewrite Hp, Hd.
    rewrite pushChange_clientSeq.
    destruct (Z.ltb_spec (Checkpoint.ClientSeq (ps_cp st)) (Change.ClientSeq cn)) as [Hlt|Hge].
    + rewrite (pushChange_new st cn Hlt). simpl. rewrite <- app_assoc.
      split; reflexivity.
    + rewrite (pushChange_known st cn Hge). simpl. split; reflexivity.
Qed.

Lemma acceptedChanges_length (known : Z) (changes : list Change.t) :
  (length (acceptedChanges known changes) <= length changes)%nat.
Proof.
  revert known. induction changes as [|cn rest IH]; intros known; simpl; [lia|].
  specialize (IH (Z.max known (Change.ClientSeq cn))).
  destruct (known <? Change.ClientSeq cn); simpl; lia.
Qed.

Lemma acceptedChanges_sublist (known : Z) (changes : list Change.t) :
  acceptedChanges known changes `sublist_of` changes.
Proof.
  revert known. induction changes as [|cn rest IH]; intros known; simpl.
  - constructor.
  - destruct (known <? Change.ClientSeq cn); [apply sublist_skip|apply sublist_cons];
      apply IH.
Qed.

Lemma pushChanges_pushed (clientInfo : ClientInfo.t) (docInfo : DocInfo.t)
    (reqPack : Pack.t) (initialServerSeq : Z) :
  let cp := ClientInfo.Checkpoint clientInfo (DocInfo.ID docInfo) in
  let accepted := acceptedChanges (Checkpoint.ClientSeq cp) (Pack.Changes reqPack) in
  pr_pushedChanges (pushChanges clientInfo docInfo reqPack initialServerSeq) =
    stampFrom (DocInfo.ServerSeq docInfo) accepted
  /\ pr_docInfo (pushChanges clientInfo docInfo reqPack initialServerSeq) =
       DocInfo.mk (DocInfo.ID docInfo) (DocInfo.CombinedKey docInfo)
         (counterAfter (DocInfo.ServerSeq docInfo) (length accepted)).
Proof.
  simpl. exact (pushLoop_pushed (Pack.Changes reqPack) (pushInit clientInfo docInfo)).
Qed.

(** ** Push stage: acceptance *)



(** ** Push stage: the returned checkpoint *)

Lemma acceptedChanges_nil_cp (changes : list Change.t) (st : PushState) :
  acceptedChanges (Checkpoint.ClientSeq (ps_cp st)) changes = [] ->
  ps_cp (pushLoop st changes) = ps_cp st.
Proof.
  revert st. induction changes as [|cn rest IH]; intros st Hnil; [reflexivity|].
  simpl in Hnil. rewrite pushLoop_cons.
  destruct (Z.ltb_spec (Checkpoint.ClientSeq (ps_cp st)) (Change.ClientSeq cn)) as [Hlt|Hge];
    [discriminate|].
  rewrite Z.max_l in Hnil by lia.
  rewrite IH; rewrite (pushChange_known st cn Hge); simpl; [reflexivity|exact Hnil].
Qed.

Lemma acceptedChanges_cons_max (changes : list Change.t) (known : Z) :
  acceptedChanges known changes <> [] ->
  known < fold_left Z.max (Change.ClientSeq <$> changes) known.
Proof.
  revert known. induction changes as [|cn rest IH]; intros known Hne; [done|].
  cbn [acceptedChanges] in Hne. rewrite fmap_cons. cbn [fold_left].
  destruct (Z.ltb_spec known (Change.ClientSeq cn)) as [Hlt|Hge].
  - pose proof (fold_max_init_le (Change.ClientSeq <$> rest)
                  (Z.max known (Change.ClientSeq cn))). lia.
  - rewrite Z.max_l in * by lia. apply IH, Hne.
Qed.

Lemma stampFrom_nil (counter : Z) (changes : list Change.t) :
  stampFrom counter changes = [] -> changes = [].
Proof. destruct changes; [reflexivity|discriminate]. Qed.

(** The running checkpoint's serverSeq is the stamp of the last accepted
    change, or the checkpoint the client had when nothing is accepted yet. *)
Lemma pushLoop_serverSeq (cp0 : Checkpoint.t) (changes : list Change.t) (st : PushState) :
  Checkpoint.ServerSeq (ps_cp st) =
    default (Checkpoint.ServerSeq cp0) (lastAssigned (ps_pushedChanges st)) ->
  Checkpoint.ServerSeq (ps_cp (pushLoop st changes)) =
    default (Checkpoint.ServerSeq cp0)
      (lastAssigned (ps_pushedChanges (pushLoop st changes))).
Proof.
  revert st. apply pushLoop_invariant with
    (P := fun st => Checkpoint.ServerSeq (ps_cp st) =
            default (Checkpoint.ServerSeq cp0) (lastAssigned (ps_pushedChanges st))).
  intros st cn Hst.
  destruct (Z.lt_ge_cases (Checkpoint.ClientSeq (ps_cp st)) (Change.ClientSeq cn))
    as [Hlt|Hge].
  - rewrite (pushChange_new st cn Hlt). simpl. unfold lastAssigned.
    rewrite last_snoc. reflexivity.
  - rewrite (pushChange_known st cn Hge). simpl. exact Hst.
Qed.

(** C4, as the code has it.  After a push of N changes of which K are
    accepted, K <= N; the returned clientSeq is the maximum of the
    checkpoint's prior clientSeq and the client sequence numbers of the
    batch, which is the batch maximum when K >= 1, while for K = 0 the
    checkpoint is returned as it was; the returned serverSeq is the last
    assigned server sequence number, or the prior serverSeq when K = 0. *)
Theorem pushChanges_checkpoint_advance
    (clientInfo : ClientInfo.t) (docInfo : DocInfo.t) (reqPack : Pack.t)
    (initialServerSeq : Z) :
  let cp := ClientInfo.Checkpoint clientInfo (DocInfo.ID docInfo) in
  let r := pushChanges clientInfo docInfo reqPack initialServerSeq in
  (length (pr_pushedChanges r) <= length (Pack.Changes reqPack))%nat
  /\ Checkpoint.ClientSeq (pr_cp r) =
       fold_left Z.max (Change.ClientSeq <$> Pack.Changes reqPack)
         (Checkpoint.ClientSeq cp)
  /\ match pr_pushedChanges r with
     | [] => pr_cp r = cp
     | _ :: _ => Some (Checkpoint.ClientSeq (pr_cp r)) = maxClientSeq (Pack.Changes reqPack)
     end
  /\ Checkpoint.ServerSeq (pr_cp r) =
       default (Checkpoint.ServerSeq cp) (lastAssigned (pr_pushedChanges r)).
Proof.
  intros cp r.
  pose proof (pushChanges_pushed clientInfo docInfo reqPack initialServerSeq) as Hp.
  cbv zeta in Hp. apply proj1 in Hp. fold cp in Hp. fold r in Hp.
  assert (Hcs : Checkpoint.ClientSeq (pr_cp r) =
                fold_left Z.max (Change.ClientSeq <$> Pack.Changes reqPack)
                  (Checkpoint.ClientSeq cp)).
  { subst r. unfold pushChanges. simpl. rewrite pushLoop_clientSeq. reflexivity. }
  split; [|split; [exact Hcs|split]].
  - rewrite Hp, stampFrom_length. apply acceptedChanges_length.
  - destruct (pr_pushedChanges r) as [|c0 pushed] eqn:Hpushed.
    + symmetry in Hp. apply stampFrom_nil in Hp.
      subst r. unfold pushChanges. simpl.
      apply acceptedChanges_nil_cp. exact Hp.
    + assert (Hne : acceptedChanges (Checkpoint.ClientSeq cp) (Pack.Changes reqPack) <> []).
      { intros Hnil. rewrite Hnil in Hp. discriminate. }
      apply acceptedChanges_cons_max in Hne. rewrite Hcs.
      destruct (Pack.Changes reqPack) as [|cn rest].
      * simpl in Hne. lia.
      * rewrite fmap_cons in *. cbn [fold_left maxClientSeq] in *.
        rewrite fold_max_shift in *. f_equal. lia.
  - subst r. unfold pushChanges. simpl. apply pushLoop_serverSeq. reflexivity.
Qed.

(** C4, as stated, fails on a retried change: the client's checkpoint is
    {clientSeq 3, serverSeq 3} and the batch is the single change with
    client sequence number 2.  Nothing is accepted and the returned clientSeq
    is 3, not the batch maximum 2. *)
Lemma pushChanges_clientSeq_not_batch_maximum :
  let clientInfo := Fixture.client (Checkpoint.mk 3 3) in
  let reqPack := Fixture.request (Checkpoint.mk 3 3) [2] in
  let r := pushChanges clientInfo (Fixture.doc 3) reqPack 3 in
  pr_pushedChanges r = []
  /\ Checkpoint.ClientSeq (pr_cp r) = 3
  /\ maxClientSeq (Pack.Changes reqPack) = Some 2
  /\ Some (Checkpoint.ClientSeq (pr_cp r)) <> maxClientSeq (Pack.Changes reqPack).
Proof. vm_compute. repeat split; discriminate. Qed.

(** ** Push stage: server sequence assignment *)

Lemma stampFrom_consecutive (changes : list Change.t) (counter : Z) :
  0 <= counter ->
  counter + Z.of_nat (length changes) < uint64_modulus ->
  stampFrom counter changes =
    zip_with Change.SetServerSeq changes (seqZ (counter + 1) (Z.of_nat (length changes)))
  /\ counterAfter counter (length changes) = counter + Z.of_nat (length changes).
Proof.
  revert counter. induction changes as [|cn rest IH]; intros counter H0 Hmax.
  - simpl. split; [reflexivity|lia].
  - cbn [length] in *. rewrite Nat2Z.inj_succ in *.
    cbn [stampFrom counterAfter]. rewrite add64_succ by lia.
    destruct (IH (counter + 1)) as [Hs Hc]; [lia|lia|].
    rewrite Hs, Hc. split; [|lia].
    rewrite (seqZ_cons (counter + 1)) by lia.
    rewrite Z.pred_succ. reflexivity.
Qed.

(** C5.  A push that starts with the document counter at s and accepts K
    changes, the counter staying within uint64 (s + K < 2^64), stamps the
    accepted changes s+1, s+2, ..., s+K in list order and leaves the counter
    at s+K, where the next push starts: the accepted list is the subsequence
    of new changes of the request, in request order, each stamped with the
    next number. *)
Theorem pushChanges_serverSeqs_consecutive
    (clientInfo : ClientInfo.t) (docInfo : DocInfo.t) (reqPack : Pack.t)
    (initialServerSeq : Z) :
  let cp := ClientInfo.Checkpoint clientInfo (DocInfo.ID docInfo) in
  let r := pushChanges clientInfo docInfo reqPack initialServerSeq in
  let s := DocInfo.ServerSeq docInfo in
  let K := Z.of_nat (length (pr_pushedChanges r)) in
  let accepted := acceptedChanges (Checkpoint.ClientSeq cp) (Pack.Changes reqPack) in
  0 <= s ->
  s + K < uint64_modulus ->
  Change.ServerSeq <$> pr_pushedChanges r = Some <$> seqZ (s + 1) K
  /\ pr_pushedChanges r = zip_with Change.SetServerSeq accepted (seqZ (s + 1) K)
  /\ accepted `sublist_of` Pack.Changes reqPack
  /\ DocInfo.ServerSeq (pr_docInfo r) = s + K.
Proof.
  intros cp r s K accepted H0 Hmax.
  pose proof (pushChanges_pushed clientInfo docInfo reqPack initialServerSeq) as Hpd.
  cbv zeta in Hpd. destruct Hpd as [Hp Hd].
  fold cp in Hp, Hd. fold accepted in Hp, Hd. fold r in Hp, Hd. fold s in Hp, Hd.
  assert (HK : K = Z.of_nat (length accepted)).
  { subst K. rewrite Hp, stampFrom_length. reflexivity. }
  destruct (stampFrom_consecutive accepted s H0) as [Hs Hc]; [lia|].
  rewrite <- HK in Hs, Hc.
  assert (Hzip : pr_pushedChanges r =
                 zip_with Change.SetServerSeq accepted (seqZ (s + 1) K))
    by (rewrite Hp; exact Hs).
  split; [|split; [exact Hzip|split]].
  - rewrite Hzip. clear -HK.
    assert (Hlen : length (seqZ (s + 1) K) = length accepted)
      by (rewrite length_seqZ; lia).
    revert Hlen. generalize (seqZ (s + 1) K). clear HK.
    induction accepted as [|cn rest IH]; intros [|z zs] Hlen; simpl in *;
      try discriminate; [reflexivity|].
    rewrite IH by lia. reflexivity.
  - apply acceptedChanges_sublist.
  - rewrite Hd. simpl. exact Hc.
Qed.

(** From the counter at 7, the batch [4; 4; 5] of a client known up to 3
    has its first and third change accepted, stamped 8 and 9. *)
Lemma pushChanges_serverSeqs_consecutive_witness :
  let clientInfo := Fixture.client (Checkpoint.mk 3 6) in
  let reqPack := Fixture.request (Checkpoint.mk 3 6) [4; 4; 5] in
  let r := pushChanges clientInfo (Fixture.doc 7) reqPack 7 in
  Change.ServerSeq <$> pr_pushedChanges r = [Some 8; Some 9]
  /\ DocInfo.ServerSeq (pr_docInfo r) = 9.
Proof.
  pose proof (pushChanges_serverSeqs_consecutive
                (Fixture.client (Checkpoint.mk 3 6)) (Fixture.doc 7)
                (Fixture.request (Checkpoint.mk 3 6) [4; 4; 5]) 7) as H.
  cbv zeta in H.
  assert (H0 : 0 <= DocInfo.ServerSeq (Fixture.doc 7)) by (vm_compute; discriminate).
  assert (Hmax : DocInfo.ServerSeq (Fixture.doc 7) +
                 Z.of_nat (length (pr_pushedChanges
                   (pushChanges (Fixture.client (Checkpoint.mk 3 6)) (Fixture.doc 7)
                      (Fixture.request (Checkpoint.mk 3 6) [4; 4; 5]) 7)))
                 < uint64_modulus) by (vm_compute; reflexivity).
  destruct (H H0 Hmax) as (Hseqs & _ & _ & Hdoc).
  split; [exact Hseqs|exact Hdoc].
Defined.

(** ** Push stage: the empty batch *)

(** C9.  On a request without changes the call returns the client's stored
    checkpoint for the document and an empty accepted list, leaves the
    document record (and so its counter) as it was, and logs nothing. *)
Theorem pushChanges_empty_noop
    (clientInfo : ClientInfo.t) (docInfo : DocInfo.t) (reqPack : Pack.t)
    (initialServerSeq : Z) :
  Pack.Changes reqPack = [] ->
  pushChanges clientInfo docInfo reqPack initialServerSeq =
    mkPushResult (ClientInfo.Checkpoint clientInfo (DocInfo.ID docInfo))
      [] docInfo [] [].
Proof. intros Hnil. unfold pushChanges. rewrite Hnil. reflexivity. Qed.

Lemma pushChanges_empty_noop_witness :
  pushChanges (Fixture.client (Checkpoint.mk 3 3)) (Fixture.doc 5)
    (Fixture.request (Checkpoint.mk 3 3) []) 5 =
  mkPushResult (Checkpoint.mk 3 3) [] (Fixture.doc 5) [] [].
Proof.
  exact (pushChanges_empty_noop (Fixture.client (Checkpoint.mk 3 3)) (Fixture.doc 5)
           (Fixture.request (Checkpoint.mk 3 3) []) 5 eq_refl).
Defined.

(** ** Push stage: duplicates within one batch *)

Lemma pushChange_core (st1 st2 : PushState) (cn : Change.t) :
  core st1 = core st2 -> core (pushChange st1 cn) = core (pushChange st2 cn).
Proof.
  unfold core. intros Heq. injection Heq as Hcp Hdoc Hpushed.
  unfold pushChange. rewrite Hcp, Hdoc, Hpushed.
  destruct (Checkpoint.ClientSeq (ps_cp st2) <? Change.ClientSeq cn); reflexivity.
Qed.

Lemma pushLoop_core (changes : list Change.t) (st1 st2 : PushState) :
  core st1 = core st2 -> core (pushLoop st1 changes) = core (pushLoop st2 changes).
Proof.
  revert st1 st2. induction changes as [|cn rest IH]; intros st1 st2 Heq; [exact Heq|].
  rewrite !pushLoop_cons. apply IH, pushChange_core, Heq.
Qed.

(** Once the loop has examined a change, every later change of the batch
    with a client sequence number no greater finds the running clientSeq at
    least as large. *)
Lemma pushLoop_seen (st : PushState) (a : Change.t) (mid : list Change.t) :
  Change.ClientSeq a <= Checkpoint.ClientSeq (ps_cp (pushLoop st (a :: mid))).
Proof.
  rewrite pushLoop_cons.
  pose proof (pushLoop_clientSeq_mono mid (pushChange st a)) as Hmono.
  rewrite pushChange_clientSeq in Hmono. lia.
Qed.

(** C10.  In one call, after a change [a] has been accepted, a later change
    [b] of the same batch with a client sequence number no greater than
    [a]'s is dropped, whatever the client's stored checkpoint was: its
    iteration leaves checkpoint, counter and accepted list untouched and
    logs the warning, the change stays unstamped in the request, and the
    call returns the same checkpoint, accepted list and document record as
    on the batch without [b]. *)
Theorem pushChanges_drops_later_duplicate
    (clientInfo : ClientInfo.t) (docInfo : DocInfo.t) (reqPack : Pack.t)
    (initialServerSeq : Z) (pre mid post : list Change.t) (a b : Change.t) :
  Pack.Changes reqPack = pre ++ a :: mid ++ b :: post ->
  Checkpoint.ClientSeq (ps_cp (pushLoop (pushInit clientInfo docInfo) pre))
    < Change.ClientSeq a ->
  Change.ClientSeq b <= Change.ClientSeq a ->
  let st := pushLoop (pushInit clientInfo docInfo) (pre ++ a :: mid) in
  let r := pushChanges clientInfo docInfo reqPack initialServerSeq in
  let r' := pushChanges clientInfo docInfo
              (withChanges reqPack (pre ++ a :: mid ++ post)) initialServerSeq in
  pushChange st b =
    mkPushState (ps_cp st) (ps_docInfo st) (ps_pushedChanges st)
      (ps_visited st ++ [b])
      (ps_log st ++ [Logged (Warnf_alreadyPushed (Change.ClientSeq b)
                               (Checkpoint.ClientSeq (ps_cp st)))])
  /\ pr_reqChanges r !! (length pre + 1 + length mid)%nat = Some b
  /\ pr_cp r = pr_cp r'
  /\ pr_pushedChanges r = pr_pushedChanges r'
  /\ pr_docInfo r = pr_docInfo r'.
Proof.
  intros Hsplit _ Hle st r r'.
  assert (Hknown : Change.ClientSeq b <= Checkpoint.ClientSeq (ps_cp st)).
  { subst st. rewrite pushLoop_app.
    pose proof (pushLoop_seen (pushLoop (pushInit clientInfo docInfo) pre) a mid). lia. }
  pose proof (pushChange_known st b Hknown) as Hstep.
  assert (Hr : Pack.Changes reqPack = (pre ++ a :: mid) ++ b :: post)
    by (rewrite Hsplit, <- app_assoc; reflexivity).
  assert (Hr' : pre ++ a :: mid ++ post = (pre ++ a :: mid) ++ post)
    by (rewrite <- app_assoc; reflexivity).
  assert (Hcore : core (pushLoop (pushInit clientInfo docInfo) (Pack.Changes reqPack)) =
                  core (pushLoop (pushInit clientInfo docInfo) (pre ++ a :: mid ++ post))).
  { rewrite Hr, Hr'.
    rewrite (pushLoop_app _ (pre ++ a :: mid) (b :: post)).
    rewrite (pushLoop_app _ (pre ++ a :: mid) post), pushLoop_cons. fold st.
    apply pushLoop_core. rewrite Hstep. reflexivity. }
  unfold core in Hcore. injection Hcore as Hcp Hdoc Hpushed.
  split; [exact Hstep|]. split; [|split; [exact Hcp|split; [exact Hpushed|exact Hdoc]]].
  subst r. unfold pushChanges. cbn [pr_reqChanges].
  rewrite Hr, pushLoop_app, pushLoop_cons. fold st.
  destruct (pushLoop_visited post (pushChange st b)) as (seen & Heq & _).
  rewrite Heq, Hstep. cbn [ps_visited].
  destruct (pushLoop_visited (pre ++ a :: mid) (pushInit clientInfo docInfo))
    as (seen0 & Heq0 & Hlen0).
  fold st in Heq0. rewrite Heq0. cbn [pushInit ps_visited app].
  rewrite length_app in Hlen0. cbn [length] in Hlen0.
  rewrite <- app_assoc. rewrite lookup_app_r by lia.
  replace (length pre + 1 + length mid - length seen0)%nat with 0%nat by lia.
  reflexivity.
Qed.

(** A client known up to 0 sends [5; 3; 6]: 5 is accepted and stamped 1,
    3 is dropped although never pushed before, 6 is stamped 2. *)
Lemma pushChanges_drops_later_duplicate_witness :
  let clientInfo := Fixture.client (Checkpoint.mk 0 0) in
  let r := pushChanges clientInfo (Fixture.doc 0)
             (Fixture.request (Checkpoint.mk 0 0) [5; 3; 6]) 0 in
  let r' := pushChanges clientInfo (Fixture.doc 0)
              (Fixture.request (Checkpoint.mk 0 0) [5; 6]) 0 in
  pr_reqChanges r !! 1%nat = Some (Fixture.change 3)
  /\ pr_pushedChanges r = pr_pushedChanges r'.
Proof.
  pose proof (pushChanges_drops_later_duplicate
                (Fixture.client (Checkpoint.mk 0 0)) (Fixture.doc 0)
                (Fixture.request (Checkpoint.mk 0 0) [5; 3; 6]) 0
                [] [] [Fixture.change 6] (Fixture.change 5) (Fixture.change 3)
                eq_refl) as H.
  cbv zeta in H.
  assert (Hacc : Checkpoint.ClientSeq
                   (ps_cp (pushLoop (pushInit (Fixture.client (Checkpoint.mk 0 0))
                                       (Fixture.doc 0)) []))
                 < Change.ClientSeq (Fixture.change 5)) by (vm_compute; reflexivity).
  assert (Hle : Change.ClientSeq (Fixture.change 3) <= Change.ClientSeq (Fixture.change 5))
    by (vm_compute; discriminate).
  destruct (H Hacc Hle) as (_ & Hreq & _ & Hpushed & _).
  split; [exact Hreq|exact Hpushed].
Defined.

(** ** The monad of the pull stage *)

Lemma bind_lift_inr {A B : Type} (a : A) (k : A -> M B) : bind (lift (inr a)) k = k a.
Proof. unfold bind, lift. destruct (k a). reflexivity. Qed.

Lemma bind_lift_inl {A B : Type} (e : error) (k : A -> M B) :
  bind (lift (inl e)) k = ([], inl e).
Proof. reflexivity. Qed.

Lemma trace_bind {A B : Type} (m : M A) (k : A -> M B) :
  trace (bind m k) =
  trace m ++ match outcome m with
             | inl _ => []
             | inr a => trace (k a)
             end.
Proof.
  destruct m as [tr [e|a]]; simpl.
  - rewrite app_nil_r. reflexivity.
  - destruct (k a). reflexivity.
Qed.

Lemma outcome_bind {A B : Type} (m : M A) (k : A -> M B) :
  outcome (bind m k) =
  match outcome m with
  | inl e => inl e
  | inr a => outcome (k a)
  end.
Proof. destruct m as [tr [e|a]]; simpl; [reflexivity|]. destruct (k a). reflexivity. Qed.

Lemma outcome_bind_inr {A B : Type} (m : M A) (k : A -> M B) (b : B) :
  outcome (bind m k) = inr b ->
  exists a, outcome m = inr a /\ outcome (k a) = inr b.
Proof.
  rewrite outcome_bind. destruct (outcome m) as [e|a]; [discriminate|].
  intros H. exists a. split; [reflexivity|exact H].
Qed.

Ltac bind_inr H a Ha :=
  apply outcome_bind_inr in H; destruct H as (a & Ha & H).

(** ** Pull stage *)

Section PullProperties.

Variable InternalDocument : Type.
Variable DocInfo_Key : DocInfo.t -> error + Key.
Variable NewInternalDocumentFromSnapshot :
  Key -> Z -> list byte -> error + InternalDocument.
Variable ApplyChangePack : InternalDocument -> Pack.t -> error + InternalDocument.
Variable ObjectToBytes : InternalDocument -> error + list byte.
Variable logging_Enabled_Debug : bool.

Abbreviation pullSnapshot' :=
  (pullSnapshot DocInfo_Key NewInternalDocumentFromSnapshot ApplyChangePack
     ObjectToBytes logging_Enabled_Debug).
Abbreviation pullPack' :=
  (pullPack DocInfo_Key NewInternalDocumentFromSnapshot ApplyChangePack
     ObjectToBytes logging_Enabled_Debug).

Variables (be : Backend.t) (clientInfo : ClientInfo.t) (docInfo : DocInfo.t).
Variables (reqPack : Pack.t) (pushedCP : Checkpoint.t) (initialServerSeq : Z).

Lemma pullChangeInfos_trace :
  exists rest,
    trace (pullChangeInfos be clientInfo docInfo reqPack pushedCP initialServerSeq) =
    Called (CallFindChangeInfosBetweenServerSeqs (DocInfo.ID docInfo)
              (add64 (Checkpoint.ServerSeq (Pack.Checkpoint reqPack)) 1)
              initialServerSeq) :: rest.
Proof. unfold pullChangeInfos. rewrite trace_bind. simpl. eexists. reflexivity. Qed.

Lemma pullSnapshot_trace :
  exists rest,
    trace (pullSnapshot' be clientInfo docInfo reqPack pushedCP initialServerSeq) =
    Called (CallFindLastSnapshotInfo (DocInfo.ID docInfo)) :: rest.
Proof. unfold pullSnapshot. rewrite trace_bind. simpl. eexists. reflexivity. Qed.

Lemma pullChangeInfos_result (cp : Checkpoint.t) (pulled : list ChangeInfo.t) :
  outcome (pullChangeInfos be clientInfo docInfo reqPack pushedCP initialServerSeq)
    = inr (cp, pulled) ->
  cp = Checkpoint.NextServerSeq pushedCP (DocInfo.ServerSeq docInfo)
  /\ DB.FindChangeInfosBetweenServerSeqs (Backend.DB be) (DocInfo.ID docInfo)
       (add64 (Checkpoint.ServerSeq (Pack.Checkpoint reqPack)) 1) initialServerSeq
     = inr pulled.
Proof.
  unfold pullChangeInfos. intros H.
  bind_inr H rows Hrows. bind_inr H u Hu.
  injection H as <- <-. split; [reflexivity|exact Hrows].
Qed.

Lemma pullSnapshot_result (cp : Checkpoint.t) (snapshot : list byte) :
  outcome (pullSnapshot' be clientInfo docInfo reqPack pushedCP initialServerSeq)
    = inr (cp, snapshot) ->
  cp = Checkpoint.NextServerSeq pushedCP (DocInfo.ServerSeq docInfo).
Proof.
  unfold pullSnapshot. intros H.
  bind_inr H info Hinfo.
  destruct (initialServerSeq <=? SnapshotInfo.ServerSeq info).
  - bind_inr H u Hu. injection H as <- _. reflexivity.
  - bind_inr H docKey Hkey. bind_inr H doc Hdoc. bind_inr H changes Hchanges.
    bind_inr H doc' Hdoc'. bind_inr H u Hu. bind_inr H u' Hu'.
    bind_inr H bytes Hbytes. injection H as <- _. reflexivity.
Qed.

(** The body of [pullPack] once docInfo.Key() has returned the key. *)
Lemma pullPack_with_key (docKey : Key) :
  DocInfo_Key docInfo = inr docKey ->
  pullPack' be clientInfo docInfo reqPack pushedCP initialServerSeq =
    if initialServerSeq <? Checkpoint.ServerSeq (Pack.Checkpoint reqPack) then
      fail (Errorf_serverSeq initialServerSeq
              (Checkpoint.ServerSeq (Pack.Checkpoint reqPack)) ErrInvalidServerSeq)
    else if sub64 initialServerSeq (Checkpoint.ServerSeq (Pack.Checkpoint reqPack))
              <? Backend.SnapshotThreshold be then
      let* (cpAfterPull, pulledChanges) :=
        pullChangeInfos be clientInfo docInfo reqPack pushedCP initialServerSeq in
      ret (NewServerPack docKey cpAfterPull pulledChanges [])
    else
      let* (cpAfterPull, snapshot) :=
        pullSnapshot' be clientInfo docInfo reqPack pushedCP initialServerSeq in
      ret (NewServerPack docKey cpAfterPull [] snapshot).
Proof. intros Hkey. unfold pullPack. rewrite Hkey, bind_lift_inr. reflexivity. Qed.

Lemma pullPack_incremental_path (docKey : Key) :
  takenPath (trace
    (let* (cpAfterPull, pulledChanges) :=
       pullChangeInfos be clientInfo docInfo reqPack pushedCP initialServerSeq in
     ret (NewServerPack docKey cpAfterPull pulledChanges []))) = Some Incremental.
Proof.
  rewrite trace_bind. destruct pullChangeInfos_trace as (rest & ->). reflexivity.
Qed.

Lemma pullPack_snapshot_path (docKey : Key) :
  takenPath (trace
    (let* (cpAfterPull, snapshot) :=
       pullSnapshot' be clientInfo docInfo reqPack pushedCP initialServerSeq in
     ret (NewServerPack docKey cpAfterPull [] snapshot))) = Some SnapshotPath.
Proof.
  rewrite trace_bind. destruct pullSnapshot_trace as (rest & ->). reflexivity.
Qed.

(** C2.  When the key of the document resolves and the request's serverSeq
    does not exceed initialServerSeq (both uint64), [pullPack] is the
    incremental pull exactly when gap = initialServerSeq - serverSeq of the
    request is below the snapshot threshold T, and the snapshot pull
    otherwise; a gap of T-1 pulls changes, a gap of T pulls a snapshot. *)
Theorem pullPack_threshold_decision (docKey : Key) :
  DocInfo_Key docInfo = inr docKey ->
  is_uint64 initialServerSeq ->
  is_uint64 (Checkpoint.ServerSeq (Pack.Checkpoint reqPack)) ->
  Checkpoint.ServerSeq (Pack.Checkpoint reqPack) <= initialServerSeq ->
  let gap := initialServerSeq - Checkpoint.ServerSeq (Pack.Checkpoint reqPack) in
  let T := Backend.SnapshotThreshold be in
  let pull := pullPack' be clientInfo docInfo reqPack pushedCP initialServerSeq in
  (gap < T ->
     pull = let* (cpAfterPull, pulledChanges) :=
              pullChangeInfos be clientInfo docInfo reqPack pushedCP initialServerSeq in
            ret (NewServerPack docKey cpAfterPull pulledChanges []))
  /\ (T <= gap ->
        pull = let* (cpAfterPull, snapshot) :=
                 pullSnapshot' be clientInfo docInfo reqPack pushedCP initialServerSeq in
               ret (NewServerPack docKey cpAfterPull [] snapshot))
  /\ (takenPath (trace pull) = Some Incremental <-> gap < T)
  /\ (takenPath (trace pull) = Some SnapshotPath <-> T <= gap)
  /\ (gap = T - 1 -> takenPath (trace pull) = Some Incremental)
  /\ (gap = T -> takenPath (trace pull) = Some SnapshotPath).
Proof.
  intros Hkey Hinit Hreq Hle gap T pull.
  assert (Hpull := pullPack_with_key docKey Hkey). fold pull in Hpull.
  rewrite (sub64_ordered _ _ Hinit Hreq Hle) in Hpull. fold gap T in Hpull.
  destruct (Z.ltb_spec initialServerSeq (Checkpoint.ServerSeq (Pack.Checkpoint reqPack)))
    as [Hlt|_]; [lia|].
  assert (Hinc : gap < T ->
            pull = (let* (cpAfterPull, pulledChanges) :=
                      pullChangeInfos be clientInfo docInfo reqPack pushedCP
                        initialServerSeq in
                    ret (NewServerPack docKey cpAfterPull pulledChanges []))
            /\ takenPath (trace pull) = Some Incremental).
  { intros Hgap. destruct (Z.ltb_spec gap T) as [_|Hge]; [|lia].
    split; [exact Hpull|]. rewrite Hpull. apply pullPack_incremental_path. }
  assert (Hsnap : T <= gap ->
            pull = (let* (cpAfterPull, snapshot) :=
                      pullSnapshot' be clientInfo docInfo reqPack pushedCP
                        initialServerSeq in
                    ret (NewServerPack docKey cpAfterPull [] snapshot))
            /\ takenPath (trace pull) = Some SnapshotPath).
  { intros Hgap. destruct (Z.ltb_spec gap T) as [Hlt|_]; [lia|].
    split; [exact Hpull|]. rewrite Hpull. apply pullPack_snapshot_path. }
  split; [intros Hgap; apply Hinc, Hgap|].
  split; [intros Hgap; apply Hsnap, Hgap|].
  split; [|split; [|split]].
  - split; [|intros Hgap; apply Hinc, Hgap].
    intros Hpath. destruct (Z.lt_ge_cases gap T) as [Hlt|Hge]; [exact Hlt|].
    destruct (Hsnap Hge) as [_ Hpath']. congruence.
  - split; [|intros Hgap; apply Hsnap, Hgap].
    intros Hpath. destruct (Z.lt_ge_cases gap T) as [Hlt|Hge]; [|exact Hge].
    destruct (Hinc Hlt) as [_ Hpath']. congruence.
  - intros Hgap. apply Hinc. lia.
  - intros Hgap. apply Hsnap. lia.
Qed.

(** Whatever docInfo.Key() returns, a request whose serverSeq is ahead of
    initialServerSeq gets an error and no pack, and no pull is started. *)
Lemma pullPack_ahead_no_pull :
  initialServerSeq < Checkpoint.ServerSeq (Pack.Checkpoint reqPack) ->
  exists err,
    pullPack' be clientInfo docInfo reqPack pushedCP initialServerSeq = ([], inl err).
Proof.
  intros Hlt. destruct (DocInfo_Key docInfo) as [e|docKey] eqn:Hkey.
  - exists e. unfold pullPack. rewrite Hkey. reflexivity.
  - rewrite (pullPack_with_key docKey Hkey).
    destruct (Z.ltb_spec initialServerSeq (Checkpoint.ServerSeq (Pack.Checkpoint reqPack)))
      as [_|Hge]; [|lia].
    eexists. reflexivity.
Qed.

(** C6.  When the key of the document resolves and initialServerSeq is
    below the request's serverSeq, [pullPack] returns the error that wraps
    [ErrInvalidServerSeq] and no pack, and has made no call and logged
    nothing: neither pull was started. *)
Theorem pullPack_invalid_serverSeq (docKey : Key) :
  DocInfo_Key docInfo = inr docKey ->
  initialServerSeq < Checkpoint.ServerSeq (Pack.Checkpoint reqPack) ->
  let err := Errorf_serverSeq initialServerSeq
               (Checkpoint.ServerSeq (Pack.Checkpoint reqPack)) ErrInvalidServerSeq in
  pullPack' be clientInfo docInfo reqPack pushedCP initialServerSeq = ([], inl err)
  /\ errors_Is err ErrInvalidServerSeq = true
  /\ takenPath
       (trace (pullPack' be clientInfo docInfo reqPack pushedCP initialServerSeq)) = None.
Proof.
  intros Hkey Hlt err.
  assert (Hpull := pullPack_with_key docKey Hkey).
  destruct (Z.ltb_spec initialServerSeq (Checkpoint.ServerSeq (Pack.Checkpoint reqPack)))
    as [_|Hge]; [|lia].
  rewrite Hpull. repeat split.
Qed.

(** C7.  When the last stored snapshot is at or past initialServerSeq,
    [pullSnapshot] returns the stored bytes as they are, after nothing but
    the snapshot lookup and one log line: no document is instantiated, no
    change range is fetched, nothing is replayed or serialised. *)
Theorem pullSnapshot_fast_path (snapshotInfo : SnapshotInfo.t) :
  DB.FindLastSnapshotInfo (Backend.DB be) (DocInfo.ID docInfo) = inr snapshotInfo ->
  initialServerSeq <= SnapshotInfo.ServerSeq snapshotInfo ->
  let pulledCP := Checkpoint.NextServerSeq pushedCP (DocInfo.ServerSeq docInfo) in
  let pull := pullSnapshot' be clientInfo docInfo reqPack pushedCP initialServerSeq in
  pull =
    ([Called (CallFindLastSnapshotInfo (DocInfo.ID docInfo));
      Logged (Infof_PULL_snapshot_without_changes (ClientInfo.ID clientInfo)
                (DocInfo.CombinedKey docInfo) pulledCP)],
     inr (pulledCP, SnapshotInfo.Snapshot snapshotInfo))
  /\ List.filter isReconstruction (trace pull) = [].
Proof.
  intros Hfind Hle pulledCP pull.
  assert (Heq : pull =
    ([Called (CallFindLastSnapshotInfo (DocInfo.ID docInfo));
      Logged (Infof_PULL_snapshot_without_changes (ClientInfo.ID clientInfo)
                (DocInfo.CombinedKey docInfo) pulledCP)],
     inr (pulledCP, SnapshotInfo.Snapshot snapshotInfo))).
  { subst pull. unfold pullSnapshot. rewrite Hfind. unfold call, bind.
    destruct (Z.leb_spec initialServerSeq (SnapshotInfo.ServerSeq snapshotInfo))
      as [_|Hgt]; [|lia].
    reflexivity. }
  split; [exact Heq|]. rewrite Heq. reflexivity.
Qed.

(** C1, as the code has it.  Whichever pull succeeds (the incremental
    pull, either branch of the snapshot pull, or [pullPack] around them),
    the checkpoint it returns is the pushed checkpoint with serverSeq set to
    docInfo.ServerSeq, the document's counter when the pull runs; that is
    initialServerSeq exactly when the counter still has the value read at
    the start of the cycle. *)
Theorem pull_checkpoint_serverSeq (cp : Checkpoint.t) :
  (exists pulled,
     outcome (pullChangeInfos be clientInfo docInfo reqPack pushedCP initialServerSeq)
       = inr (cp, pulled))
  \/ (exists snapshot,
        outcome (pullSnapshot' be clientInfo docInfo reqPack pushedCP initialServerSeq)
          = inr (cp, snapshot))
  \/ (exists pack,
        outcome (pullPack' be clientInfo docInfo reqPack pushedCP initialServerSeq)
          = inr pack /\ ServerPack.Checkpoint pack = cp) ->
  Checkpoint.ServerSeq cp = DocInfo.ServerSeq docInfo
  /\ Checkpoint.ClientSeq cp = Checkpoint.ClientSeq pushedCP
  /\ (Checkpoint.ServerSeq cp = initialServerSeq <->
        DocInfo.ServerSeq docInfo = initialServerSeq).
Proof.
  intros Hpull.
  assert (Hcp : cp = Checkpoint.NextServerSeq pushedCP (DocInfo.ServerSeq docInfo)).
  { destruct Hpull as [(pulled & H)|[(snapshot & H)|(pack & H & Hpack)]].
    - apply pullChangeInfos_result in H. apply H.
    - apply pullSnapshot_result in H. exact H.
    - unfold pullPack in H. bind_inr H docKey Hkey.
      destruct (initialServerSeq <? Checkpoint.ServerSeq (Pack.Checkpoint reqPack));
        [discriminate|].
      destruct (sub64 initialServerSeq (Checkpoint.ServerSeq (Pack.Checkpoint reqPack))
                  <? Backend.SnapshotThreshold be).
      + bind_inr H res Hres. destruct res as [cp' pulled].
        injection H as <-. simpl in Hpack. subst cp'.
        apply pullChangeInfos_result in Hres. apply Hres.
      + bind_inr H res Hres. destruct res as [cp' snapshot].
        injection H as <-. simpl in Hpack. subst cp'.
        apply pullSnapshot_result in Hres. exact Hres. }
  subst cp. simpl. split; [reflexivity|]. split; [reflexivity|]. tauto.
Qed.

(** C8, as the code has it.  A pack returned by [pullPack] never has both
    payload fields populated: on the incremental path its snapshot is nil
    and its changes are the rows the store returned for the range (none when
    the range is empty), which is what [pullChangeInfos] returned; on the
    snapshot path its changes are nil and its snapshot is the bytes
    [pullSnapshot] returned. *)
Theorem pullPack_payload_exclusive (pack : ServerPack.t) :
  let pull := pullPack' be clientInfo docInfo reqPack pushedCP initialServerSeq in
  outcome pull = inr pack ->
  bothPopulated pack = false
  /\ match takenPath (trace pull) with
     | Some Incremental =>
         ServerPack.Snapshot pack = []
         /\ DB.FindChangeInfosBetweenServerSeqs (Backend.DB be) (DocInfo.ID docInfo)
              (add64 (Checkpoint.ServerSeq (Pack.Checkpoint reqPack)) 1)
              initialServerSeq = inr (ServerPack.ChangeInfos pack)
         /\ outcome (pullChangeInfos be clientInfo docInfo reqPack pushedCP
                       initialServerSeq)
              = inr (ServerPack.Checkpoint pack, ServerPack.ChangeInfos pack)
     | Some SnapshotPath =>
         ServerPack.ChangeInfos pack = []
         /\ outcome (pullSnapshot' be clientInfo docInfo reqPack pushedCP
                       initialServerSeq)
              = inr (ServerPack.Checkpoint pack, ServerPack.Snapshot pack)
     | None => False
     end.
Proof.
  intros pull H.
  destruct (DocInfo_Key docInfo) as [e|docKey] eqn:Hkey.
  { subst pull. unfold pullPack in H. rewrite Hkey in H. discriminate. }
  assert (Hpull := pullPack_with_key docKey Hkey). fold pull in Hpull.
  rewrite Hpull in H. rewrite Hpull. clear Hpull.
  destruct (initialServerSeq <? Checkpoint.ServerSeq (Pack.Checkpoint reqPack));
    [discriminate|].
  destruct (sub64 initialServerSeq (Checkpoint.ServerSeq (Pack.Checkpoint reqPack))
              <? Backend.SnapshotThreshold be).
  - rewrite pullPack_incremental_path.
    bind_inr H res Hres. destruct res as [cp pulled]. injection H as <-.
    pose proof (pullChangeInfos_result cp pulled Hres) as [_ Hrows].
    unfold bothPopulated. simpl. rewrite andb_false_r.
    split; [reflexivity|]. split; [reflexivity|]. split; [exact Hrows|exact Hres].
  - rewrite pullPack_snapshot_path.
    bind_inr H res Hres. destruct res as [cp snapshot]. injection H as <-.
    unfold bothPopulated. simpl.
    split; [reflexivity|]. split; [reflexivity|exact Hres].
Qed.

End PullProperties.

(** ** The pull stage on the concrete store *)

(** Threshold 3, initialServerSeq 5: a client at serverSeq 3 (gap 2) pulls
    changes, a client at serverSeq 2 (gap 3) pulls a snapshot. *)
Lemma pullPack_threshold_decision_witness :
  takenPath (trace (Fixture.pullPack (Fixture.backend 3)
                      (Fixture.client (Checkpoint.mk 0 3)) (Fixture.doc 5)
                      (Fixture.request (Checkpoint.mk 0 3) []) (Checkpoint.mk 0 3) 5))
    = Some Incremental
  /\ takenPath (trace (Fixture.pullPack (Fixture.backend 3)
                         (Fixture.client (Checkpoint.mk 0 2)) (Fixture.doc 5)
                         (Fixture.request (Checkpoint.mk 0 2) []) (Checkpoint.mk 0 2) 5))
       = Some SnapshotPath.
Proof.
  split.
  - refine (proj1 (proj2 (proj2 (proj2 (proj2
      (@pullPack_threshold_decision Fixture.Doc Fixture.keyOf Fixture.fromSnapshot
         Fixture.apply Fixture.toBytes false (Fixture.backend 3)
         (Fixture.client (Checkpoint.mk 0 3)) (Fixture.doc 5)
         (Fixture.request (Checkpoint.mk 0 3) []) (Checkpoint.mk 0 3) 5
         "notes$doc-1" eq_refl _ _ _))))) eq_refl);
      vm_compute; try split; congruence.
  - refine (proj2 (proj2 (proj2 (proj2 (proj2
      (@pullPack_threshold_decision Fixture.Doc Fixture.keyOf Fixture.fromSnapshot
         Fixture.apply Fixture.toBytes false (Fixture.backend 3)
         (Fixture.client (Checkpoint.mk 0 2)) (Fixture.doc 5)
         (Fixture.request (Checkpoint.mk 0 2) []) (Checkpoint.mk 0 2) 5
         "notes$doc-1" eq_refl _ _ _))))) eq_refl);
      vm_compute; try split; congruence.
Defined.

(** A client that claims serverSeq 4 of a document at 2. *)
Lemma pullPack_invalid_serverSeq_witness :
  Fixture.pullPack (Fixture.backend 3) (Fixture.client (Checkpoint.mk 0 4))
    (Fixture.doc 2) (Fixture.request (Checkpoint.mk 0 4) []) (Checkpoint.mk 0 4) 2
  = ([], inl (Errorf_serverSeq 2 4 ErrInvalidServerSeq)).
Proof.
  refine (proj1
    (@pullPack_invalid_serverSeq Fixture.Doc Fixture.keyOf Fixture.fromSnapshot
       Fixture.apply Fixture.toBytes false (Fixture.backend 3)
       (Fixture.client (Checkpoint.mk 0 4)) (Fixture.doc 2)
       (Fixture.request (Checkpoint.mk 0 4) []) (Checkpoint.mk 0 4) 2
       "notes$doc-1" eq_refl _)).
  vm_compute. reflexivity.
Defined.

(** The stored snapshot is at 2 and initialServerSeq is 2. *)
Lemma pullSnapshot_fast_path_witness :
  outcome (Fixture.pullSnapshot (Fixture.backend 0) (Fixture.client (Checkpoint.mk 0 0))
             (Fixture.doc 2) (Fixture.request (Checkpoint.mk 0 0) []) (Checkpoint.mk 0 0) 2)
  = inr (Checkpoint.mk 0 2, [x0a; x0b]).
Proof.
  refine (f_equal snd (proj1
    (@pullSnapshot_fast_path Fixture.Doc Fixture.keyOf Fixture.fromSnapshot
       Fixture.apply Fixture.toBytes false (Fixture.backend 0)
       (Fixture.client (Checkpoint.mk 0 0)) (Fixture.doc 2)
       (Fixture.request (Checkpoint.mk 0 0) []) (Checkpoint.mk 0 0) 2
       (SnapshotInfo.mk 2 [x0a; x0b]) eq_refl _))).
  vm_compute. discriminate.
Defined.

(** A pure pull of a document at 5 whose counter has not moved. *)
Lemma pull_checkpoint_serverSeq_witness :
  let pack := ServerPack.mk "notes$doc-1" (Checkpoint.mk 0 5) [] [x0a; x0b; x01; x01; x01] in
  outcome (Fixture.pullPack (Fixture.backend 3) (Fixture.client (Checkpoint.mk 0 0))
             (Fixture.doc 5) (Fixture.request (Checkpoint.mk 0 0) []) (Checkpoint.mk 0 0) 5)
    = inr pack
  /\ Checkpoint.ServerSeq (ServerPack.Checkpoint pack) = DocInfo.ServerSeq (Fixture.doc 5).
Proof.
  assert (Hrun : outcome (Fixture.pullPack (Fixture.backend 3)
                            (Fixture.client (Checkpoint.mk 0 0)) (Fixture.doc 5)
                            (Fixture.request (Checkpoint.mk 0 0) []) (Checkpoint.mk 0 0) 5)
                 = inr (ServerPack.mk "notes$doc-1" (Checkpoint.mk 0 5) []
                          [x0a; x0b; x01; x01; x01]))
    by (vm_compute; reflexivity).
  split; [exact Hrun|].
  refine (proj1
    (@pull_checkpoint_serverSeq Fixture.Doc Fixture.keyOf Fixture.fromSnapshot
       Fixture.apply Fixture.toBytes false (Fixture.backend 3)
       (Fixture.client (Checkpoint.mk 0 0)) (Fixture.doc 5)
       (Fixture.request (Checkpoint.mk 0 0) []) (Checkpoint.mk 0 0) 5
       (Checkpoint.mk 0 5) _)).
  right. right. eexists. split; [exact Hrun|reflexivity].
Defined.

(** C1, as stated, fails as soon as the push stage of the request accepts
    a change.  The document is at 0 when the cycle starts; the client pushes
    one new change, which takes server sequence 1; the pull of the same
    request, still given initialServerSeq = 0, returns a checkpoint with
    serverSeq 1, on the incremental path (threshold 100) and on the snapshot
    path (threshold 0) alike. *)
Lemma pull_checkpoint_not_initialServerSeq :
  let cp := Checkpoint.mk 0 0 in
  let clientInfo := Fixture.client cp in
  let reqPack := Fixture.request cp [1] in
  let initialServerSeq := DocInfo.ServerSeq (Fixture.doc 0) in
  let pushed := pushChanges clientInfo (Fixture.doc 0) reqPack initialServerSeq in
  let reqPack' := withChanges reqPack (pr_reqChanges pushed) in
  let pull T := Fixture.pullPack (Fixture.emptyBackend T) clientInfo (pr_docInfo pushed)
                  reqPack' (pr_cp pushed) initialServerSeq in
  initialServerSeq = 0
  /\ length (pr_pushedChanges pushed) = 1%nat
  /\ (exists pack, outcome (pull 100) = inr pack
        /\ takenPath (trace (pull 100)) = Some Incremental
        /\ Checkpoint.ServerSeq (ServerPack.Checkpoint pack) = 1
        /\ Checkpoint.ServerSeq (ServerPack.Checkpoint pack) <> initialServerSeq)
  /\ (exists pack, outcome (pull 0) = inr pack
        /\ takenPath (trace (pull 0)) = Some SnapshotPath
        /\ Checkpoint.ServerSeq (ServerPack.Checkpoint pack) = 1
        /\ Checkpoint.ServerSeq (ServerPack.Checkpoint pack) <> initialServerSeq).
Proof.
  cbv zeta. split; [reflexivity|]. split; [reflexivity|].
  split; eexists; (split; [vm_compute; reflexivity|]);
    (split; [vm_compute; reflexivity|]); split; vm_compute; congruence.
Qed.

(** A client at serverSeq 2 pulls from a document at 5: with threshold 100
    it gets the rows 3 to 5 and no snapshot, with threshold 0 the bytes
    [pullSnapshot] rebuilt and no changes. *)
Lemma pullPack_payload_exclusive_witness :
  let pack := ServerPack.mk "notes$doc-1" (Checkpoint.mk 0 5) (Fixture.row <$> [3; 4; 5]) [] in
  let pack' := ServerPack.mk "notes$doc-1" (Checkpoint.mk 0 5) []
                 [x0a; x0b; x01; x01; x01] in
  (outcome (Fixture.pullPack (Fixture.backend 100) (Fixture.client (Checkpoint.mk 0 2))
              (Fixture.doc 5) (Fixture.request (Checkpoint.mk 0 2) []) (Checkpoint.mk 0 2) 5)
     = inr pack
   /\ bothPopulated pack = false)
  /\ (outcome (Fixture.pullPack (Fixture.backend 0) (Fixture.client (Checkpoint.mk 0 2))
                 (Fixture.doc 5) (Fixture.request (Checkpoint.mk 0 2) [])
                 (Checkpoint.mk 0 2) 5)
        = inr pack'
      /\ ServerPack.ChangeInfos pack' = []
      /\ outcome (Fixture.pullSnapshot (Fixture.backend 0)
                    (Fixture.client (Checkpoint.mk 0 2)) (Fixture.doc 5)
                    (Fixture.request (Checkpoint.mk 0 2) []) (Checkpoint.mk 0 2) 5)
           = inr (ServerPack.Checkpoint pack', ServerPack.Snapshot pack')).
Proof.
  cbv zeta.
  assert (Hrun : outcome (Fixture.pullPack (Fixture.backend 100)
                            (Fixture.client (Checkpoint.mk 0 2)) (Fixture.doc 5)
                            (Fixture.request (Checkpoint.mk 0 2) []) (Checkpoint.mk 0 2) 5)
                 = inr (ServerPack.mk "notes$doc-1" (Checkpoint.mk 0 5)
                          (Fixture.row <$> [3; 4; 5]) []))
    by (vm_compute; reflexivity).
  assert (Hrun' : outcome (Fixture.pullPack (Fixture.backend 0)
                             (Fixture.client (Checkpoint.mk 0 2)) (Fixture.doc 5)
                             (Fixture.request (Checkpoint.mk 0 2) []) (Checkpoint.mk 0 2) 5)
                  = inr (ServerPack.mk "notes$doc-1" (Checkpoint.mk 0 5) []
                           [x0a; x0b; x01; x01; x01]))
    by (vm_compute; reflexivity).
  split.
  - split; [exact Hrun|].
    exact (proj1
      (@pullPack_payload_exclusive Fixture.Doc Fixture.keyOf Fixture.fromSnapshot
         Fixture.apply Fixture.toBytes false (Fixture.backend 100)
         (Fixture.client (Checkpoint.mk 0 2)) (Fixture.doc 5)
         (Fixture.request (Checkpoint.mk 0 2) []) (Checkpoint.mk 0 2) 5
         (ServerPack.mk "notes$doc-1" (Checkpoint.mk 0 5) (Fixture.row <$> [3; 4; 5]) [])
         Hrun)).
  - split; [exact Hrun'|].
    exact (proj2
      (@pullPack_payload_exclusive Fixture.Doc Fixture.keyOf Fixture.fromSnapshot
         Fixture.apply Fixture.toBytes false (Fixture.backend 0)
         (Fixture.client (Checkpoint.mk 0 2)) (Fixture.doc 5)
         (Fixture.request (Checkpoint.mk 0 2) []) (Checkpoint.mk 0 2) 5
         (ServerPack.mk "notes$doc-1" (Checkpoint.mk 0 5) [] [x0a; x0b; x01; x01; x01])
         Hrun')).
Defined.

(** C8, as stated, fails for a client that is up to date: at serverSeq 5 of
    a document at 5 the range to pull is empty, the incremental path is
    taken and the pack carries neither changes nor a snapshot. *)
Lemma pullPack_neither_populated :
  let cp := Checkpoint.mk 0 5 in
  let pull := Fixture.pullPack (Fixture.backend 100) (Fixture.client cp) (Fixture.doc 5)
                (Fixture.request cp []) cp 5 in
  outcome pull = inr (ServerPack.mk "notes$doc-1" cp [] [])
  /\ takenPath (trace pull) = Some Incremental
  /\ exactlyOnePopulated (ServerPack.mk "notes$doc-1" cp [] []) = false.
Proof. vm_compute. repeat split. Qed.

(** * Further properties of the push stage *)

Lemma fold_max_elem_le (l : list Z) (a x : Z) : x ∈ l -> x <= fold_left Z.max l a.
Proof.
  revert a. induction l as [|y l IH]; intros a Hin; [inversion Hin|].
  cbn [fold_left]. apply elem_of_cons in Hin as [->|Hin].
  - pose proof (fold_max_init_le l (Z.max a y)). lia.
  - apply IH, Hin.
Qed.

(** The loop on a batch the checkpoint already covers: every change is
    dropped with its warning, nothing else moves. *)
Lemma pushLoop_all_known (changes : list Change.t) (st : PushState) :
  Forall (fun cn => Change.ClientSeq cn <= Checkpoint.ClientSeq (ps_cp st)) changes ->
  pushLoop st changes =
    mkPushState (ps_cp st) (ps_docInfo st) (ps_pushedChanges st)
      (ps_visited st ++ changes)
      (ps_log st ++ (warningFor (ps_cp st) <$> changes)).
Proof.
  revert st. induction changes as [|cn rest IH]; intros st Hall.
  - simpl. rewrite !app_nil_r. destruct st; reflexivity.
  - apply Forall_cons in Hall as [Hcn Hrest].
    rewrite pushLoop_cons, IH; rewrite (pushChange_known st cn Hcn); cbn [ps_cp];
      [|exact Hrest].
    cbn [ps_docInfo ps_pushedChanges ps_visited ps_log].
    rewrite fmap_cons, <- !app_assoc. reflexivity.
Qed.

Lemma pushChanges_known_batch
    (clientInfo : ClientInfo.t) (docInfo : DocInfo.t) (reqPack : Pack.t)
    (initialServerSeq : Z) :
  let cp := ClientInfo.Checkpoint clientInfo (DocInfo.ID docInfo) in
  Forall (fun cn => Change.ClientSeq cn <= Checkpoint.ClientSeq cp)
    (Pack.Changes reqPack) ->
  pushChanges clientInfo docInfo reqPack initialServerSeq =
    mkPushResult cp [] docInfo (Pack.Changes reqPack)
      ((warningFor cp <$> Pack.Changes reqPack) ++
       match Pack.Changes reqPack with
       | [] => []
       | _ :: _ =>
           [Logged (Infof_PUSH (ClientInfo.ID clientInfo) 0
                      (DocInfo.CombinedKey docInfo)
                      (Z.of_nat (length (Pack.Changes reqPack)))
                      initialServerSeq (DocInfo.ServerSeq docInfo) cp)]
       end).
Proof.
  intros cp Hall. unfold pushChanges.
  rewrite (pushLoop_all_known (Pack.Changes reqPack) (pushInit clientInfo docInfo) Hall).
  cbn [pushInit ps_cp ps_docInfo ps_pushedChanges ps_visited ps_log app length].
  fold cp. destruct (Pack.Changes reqPack) as [|cn rest].
  - reflexivity.
  - cbn [length Nat.ltb Nat.leb]. rewrite Z.sub_0_r. reflexivity.
Qed.

(** X2.  A batch whose client sequence numbers are all covered by the
    stored checkpoint is dropped as a whole: nothing is accepted, the
    checkpoint and the document record come back as they were, the request
    is left unstamped, and the log is one warning per change followed by the
    PUSH line when the batch is not empty. *)
Theorem pushChanges_all_known
    (clientInfo : ClientInfo.t) (docInfo : DocInfo.t) (reqPack : Pack.t)
    (initialServerSeq : Z) :
  let cp := ClientInfo.Checkpoint clientInfo (DocInfo.ID docInfo) in
  Forall (fun cn => Change.ClientSeq cn <= Checkpoint.ClientSeq cp)
    (Pack.Changes reqPack) ->
  pushChanges clientInfo docInfo reqPack initialServerSeq =
    mkPushResult cp [] docInfo (Pack.Changes reqPack)
      ((warningFor cp <$> Pack.Changes reqPack) ++
       match Pack.Changes reqPack with
       | [] => []
       | _ :: _ =>
           [Logged (Infof_PUSH (ClientInfo.ID clientInfo) 0
                      (DocInfo.CombinedKey docInfo)
                      (Z.of_nat (length (Pack.Changes reqPack)))
                      initialServerSeq (DocInfo.ServerSeq docInfo) cp)]
       end).
Proof. exact (pushChanges_known_batch clientInfo docInfo reqPack initialServerSeq). Qed.

(** A client known up to 3 resends the changes 2 and 3. *)
Lemma pushChanges_all_known_witness :
  pr_pushedChanges
    (pushChanges (Fixture.client (Checkpoint.mk 3 3)) (Fixture.doc 3)
       (Fixture.request (Checkpoint.mk 3 3) [2; 3]) 3) = []
  /\ pr_docInfo
       (pushChanges (Fixture.client (Checkpoint.mk 3 3)) (Fixture.doc 3)
          (Fixture.request (Checkpoint.mk 3 3) [2; 3]) 3) = Fixture.doc 3.
Proof.
  assert (Hall : Forall (fun cn => Change.ClientSeq cn <=
                    Checkpoint.ClientSeq
                      (ClientInfo.Checkpoint (Fixture.client (Checkpoint.mk 3 3))
                         (DocInfo.ID (Fixture.doc 3))))
                   (Pack.Changes (Fixture.request (Checkpoint.mk 3 3) [2; 3]))).
  { repeat constructor; vm_compute; discriminate. }
  rewrite (pushChanges_all_known (Fixture.client (Checkpoint.mk 3 3)) (Fixture.doc 3)
             (Fixture.request (Checkpoint.mk 3 3) [2; 3]) 3 Hall).
  split; reflexivity.
Defined.

Lemma stampedOrSame_clientSeq (cn cn' : Change.t) :
  stampedOrSame cn cn' ->
  Change.ClientSeq cn' = Change.ClientSeq cn /\ Change.Message cn' = Change.Message cn.
Proof. intros [->|[serverSeq ->]]; split; reflexivity. Qed.

Lemma pushChange_visited (st : PushState) (cn : Change.t) :
  exists cn', ps_visited (pushChange st cn) = ps_visited st ++ [cn']
              /\ stampedOrSame cn cn'.
Proof.
  unfold pushChange.
  destruct (Checkpoint.ClientSeq (ps_cp st) <? Change.ClientSeq cn); simpl.
  - eexists. split; [reflexivity|]. right. eexists. reflexivity.
  - exists cn. split; [reflexivity|]. left. reflexivity.
Qed.

Lemma pushLoop_request (changes : list Change.t) (st : PushState) :
  exists seen, ps_visited (pushLoop st changes) = ps_visited st ++ seen
               /\ Forall2 stampedOrSame changes seen.
Proof.
  revert st. induction changes as [|cn rest IH]; intros st.
  - exists []. simpl. rewrite app_nil_r. split; [reflexivity|constructor].
  - rewrite pushLoop_cons. destruct (IH (pushChange st cn)) as (seen & Heq & Hrel).
    destruct (pushChange_visited st cn) as (cn' & Hone & Hcn).
    exists (cn' :: seen). split.
    + rewrite Heq, Hone, <- app_assoc. reflexivity.
    + constructor; assumption.
Qed.

Lemma pushLoop_pushed_sublist (changes : list Change.t) (st : PushState) :
  ps_pushedChanges st `sublist_of` ps_visited st ->
  ps_pushedChanges (pushLoop st changes) `sublist_of` ps_visited (pushLoop st changes).
Proof.
  revert st. apply pushLoop_invariant
    with (P := fun st => ps_pushedChanges st `sublist_of` ps_visited st).
  intros st cn Hst. unfold pushChange.
  destruct (Checkpoint.ClientSeq (ps_cp st) <? Change.ClientSeq cn); simpl.
  - apply sublist_app; [exact Hst|reflexivity].
  - apply sublist_inserts_r, Hst.
Qed.

Lemma pushChanges_frame
    (clientInfo : ClientInfo.t) (docInfo : DocInfo.t) (reqPack : Pack.t)
    (initialServerSeq : Z) :
  let r := pushChanges clientInfo docInfo reqPack initialServerSeq in
  Forall2 stampedOrSame (Pack.Changes reqPack) (pr_reqChanges r)
  /\ Change.ClientSeq <$> pr_reqChanges r = Change.ClientSeq <$> Pack.Changes reqPack
  /\ Change.Message <$> pr_reqChanges r = Change.Message <$> Pack.Changes reqPack
  /\ pr_pushedChanges r `sublist_of` pr_reqChanges r
  /\ DocInfo.ID (pr_docInfo r) = DocInfo.ID docInfo
  /\ DocInfo.CombinedKey (pr_docInfo r) = DocInfo.CombinedKey docInfo.
Proof.
  intros r.
  destruct (pushLoop_request (Pack.Changes reqPack) (pushInit clientInfo docInfo))
    as (seen & Heq & Hrel).
  assert (Hreq : pr_reqChanges r = seen) by exact Heq.
  rewrite Hreq.
  split; [exact Hrel|]. split; [|split; [|split; [|split]]].
  - clear -Hrel. induction Hrel as [|cn cn' l l' Hcn _ IH]; [reflexivity|].
    rewrite !fmap_cons, IH. f_equal. apply stampedOrSame_clientSeq, Hcn.
  - clear -Hrel. induction Hrel as [|cn cn' l l' Hcn _ IH]; [reflexivity|].
    rewrite !fmap_cons, IH. f_equal. apply stampedOrSame_clientSeq, Hcn.
  - rewrite <- Hreq. subst r. unfold pushChanges. cbn [pr_pushedChanges pr_reqChanges].
    apply pushLoop_pushed_sublist. constructor.
  - pose proof (pushChanges_pushed clientInfo docInfo reqPack initialServerSeq) as Hp.
    cbv zeta in Hp. destruct Hp as [_ Hd]. fold r in Hd. rewrite Hd. reflexivity.
  - pose proof (pushChanges_pushed clientInfo docInfo reqPack initialServerSeq) as Hp.
    cbv zeta in Hp. destruct Hp as [_ Hd]. fold r in Hd. rewrite Hd. reflexivity.
Qed.

(** X7.  The push stage touches the request's changes only by stamping:
    after the call the request holds as many changes as before, each one
    either as it was or with a server sequence number set (client sequence
    number and message kept); the accepted list is a subsequence of the
    request as the call leaves it; and of the document record only the
    counter can have moved. *)
Theorem pushChanges_request_frame
    (clientInfo : ClientInfo.t) (docInfo : DocInfo.t) (reqPack : Pack.t)
    (initialServerSeq : Z) :
  let r := pushChanges clientInfo docInfo reqPack initialServerSeq in
  Forall2 stampedOrSame (Pack.Changes reqPack) (pr_reqChanges r)
  /\ Change.ClientSeq <$> pr_reqChanges r = Change.ClientSeq <$> Pack.Changes reqPack
  /\ Change.Message <$> pr_reqChanges r = Change.Message <$> Pack.Changes reqPack
  /\ pr_pushedChanges r `sublist_of` pr_reqChanges r
  /\ DocInfo.ID (pr_docInfo r) = DocInfo.ID docInfo
  /\ DocInfo.CombinedKey (pr_docInfo r) = DocInfo.CombinedKey docInfo.
Proof. exact (pushChanges_frame clientInfo docInfo reqPack initialServerSeq). Qed.

(** X3.  A retry is idempotent.  Once the checkpoint a push returned is the
    one stored for the client, pushing the same request again, against the
    document record the first push left, accepts nothing: the checkpoint,
    the document counter and the request's changes stay as the first push
    left them. *)
Theorem pushChanges_retry
    (clientInfo clientInfo' : ClientInfo.t) (docInfo : DocInfo.t) (reqPack : Pack.t)
    (initialServerSeq initialServerSeq' : Z) :
  let r := pushChanges clientInfo docInfo reqPack initialServerSeq in
  ClientInfo.Checkpoint clientInfo' (DocInfo.ID docInfo) = pr_cp r ->
  let r' := pushChanges clientInfo' (pr_docInfo r)
              (withChanges reqPack (pr_reqChanges r)) initialServerSeq' in
  pr_pushedChanges r' = []
  /\ pr_cp r' = pr_cp r
  /\ pr_docInfo r' = pr_docInfo r
  /\ pr_reqChanges r' = pr_reqChanges r.
Proof.
  intros r Hstored r'.
  destruct (pushChanges_frame clientInfo docInfo reqPack initialServerSeq)
    as (_ & Hseqs & _ & _ & Hid & _).
  fold r in Hseqs, Hid.
  assert (Hall : Forall (fun cn => Change.ClientSeq cn <=
                           Checkpoint.ClientSeq
                             (ClientInfo.Checkpoint clientInfo' (DocInfo.ID (pr_docInfo r))))
                   (Pack.Changes (withChanges reqPack (pr_reqChanges r)))).
  { rewrite Hid, Hstored. cbn [withChanges Pack.Changes].
    apply Forall_forall. intros cn Hin.
    assert (Hcs : Checkpoint.ClientSeq (pr_cp r) =
                  fold_left Z.max (Change.ClientSeq <$> Pack.Changes reqPack)
                    (Checkpoint.ClientSeq
                       (ClientInfo.Checkpoint clientInfo (DocInfo.ID docInfo)))).
    { subst r. unfold pushChanges. cbn [pr_cp]. rewrite pushLoop_clientSeq. reflexivity. }
    rewrite Hcs, <- Hseqs. apply fold_max_elem_le.
    apply list_elem_of_fmap. exists cn. split; [reflexivity|exact Hin]. }
  subst r'.
  rewrite (pushChanges_known_batch clientInfo' (pr_docInfo r)
             (withChanges reqPack (pr_reqChanges r)) initialServerSeq' Hall).
  cbn [pr_pushedChanges pr_cp pr_docInfo pr_reqChanges withChanges Pack.Changes].
  rewrite Hid, Hstored. repeat split.
Qed.

(** The client resends [1; 2; 3] after the server stored the checkpoint
    {clientSeq 3, serverSeq 3} the first push returned. *)
Lemma pushChanges_retry_witness :
  let r := pushChanges (Fixture.client (Checkpoint.mk 0 0)) (Fixture.doc 0)
             (Fixture.request (Checkpoint.mk 0 0) [1; 2; 3]) 0 in
  let r' := pushChanges (Fixture.client (Checkpoint.mk 3 3)) (pr_docInfo r)
              (withChanges (Fixture.request (Checkpoint.mk 0 0) [1; 2; 3])
                 (pr_reqChanges r)) 3 in
  pr_cp r = Checkpoint.mk 3 3
  /\ pr_pushedChanges r' = []
  /\ pr_cp r' = pr_cp r
  /\ pr_docInfo r' = pr_docInfo r.
Proof.
  cbv zeta. split; [vm_compute; reflexivity|].
  destruct (pushChanges_retry (Fixture.client (Checkpoint.mk 0 0))
              (Fixture.client (Checkpoint.mk 3 3)) (Fixture.doc 0)
              (Fixture.request (Checkpoint.mk 0 0) [1; 2; 3]) 0 3)
    as (Hnone & Hcp & Hdoc & _).
  - vm_compute. reflexivity.
  - split; [exact Hnone|]. split; [exact Hcp|exact Hdoc].
Defined.

(** ** One batch or two *)

Lemma pushChange_prepend (pushed visited : list Change.t) (log : list Event)
    (st : PushState) (cn : Change.t) :
  pushChange (prepend pushed visited log st) cn =
  prepend pushed visited log (pushChange st cn).
Proof.
  unfold pushChange, prepend. cbn [ps_cp ps_docInfo ps_pushedChanges ps_visited ps_log].
  destruct (Checkpoint.ClientSeq (ps_cp st) <? Change.ClientSeq cn).
  - destruct (DocInfo.IncreaseServerSeq (ps_docInfo st)) as [docInfo serverSeq].
    cbn [ps_cp ps_docInfo ps_pushedChanges ps_visited ps_log].
    rewrite <- !app_assoc. reflexivity.
  - cbn [ps_cp ps_docInfo ps_pushedChanges ps_visited ps_log].
    rewrite <- !app_assoc. reflexivity.
Qed.

Lemma pushLoop_prepend (changes : list Change.t) (pushed visited : list Change.t)
    (log : list Event) (st : PushState) :
  pushLoop (prepend pushed visited log st) changes =
  prepend pushed visited log (pushLoop st changes).
Proof.
  revert st. induction changes as [|cn rest IH]; intros st; [reflexivity|].
  rewrite !pushLoop_cons, pushChange_prepend. apply IH.
Qed.

Lemma prepend_fresh (st : PushState) :
  st = prepend (ps_pushedChanges st) (ps_visited st) (ps_log st)
         (mkPushState (ps_cp st) (ps_docInfo st) [] [] []).
Proof. unfold prepend. simpl. rewrite !app_nil_r. destruct st; reflexivity. Qed.

(** X1.  Pushing a batch in one request or in two gives the same result.
    If, after the first part is pushed, the returned checkpoint is the one
    stored for the client and the second part is pushed against the document
    record the first push left, then the two accepted lists, one after the
    other, are the accepted list of the whole batch, and the final
    checkpoint, document record and request changes agree as well. *)
Theorem pushChanges_split
    (clientInfo clientInfo' : ClientInfo.t) (docInfo : DocInfo.t) (reqPack : Pack.t)
    (first second : list Change.t) (seq0 seq1 seq2 : Z) :
  let whole := pushChanges clientInfo docInfo (withChanges reqPack (first ++ second)) seq0 in
  let r1 := pushChanges clientInfo docInfo (withChanges reqPack first) seq1 in
  ClientInfo.Checkpoint clientInfo' (DocInfo.ID docInfo) = pr_cp r1 ->
  let r2 := pushChanges clientInfo' (pr_docInfo r1) (withChanges reqPack second) seq2 in
  pr_cp whole = pr_cp r2
  /\ pr_docInfo whole = pr_docInfo r2
  /\ pr_pushedChanges whole = pr_pushedChanges r1 ++ pr_pushedChanges r2
  /\ pr_reqChanges whole = pr_reqChanges r1 ++ pr_reqChanges r2.
Proof.
  intros whole r1 Hstored r2.
  set (st1 := pushLoop (pushInit clientInfo docInfo) first).
  assert (Hid : DocInfo.ID (ps_docInfo st1) = DocInfo.ID docInfo).
  { destruct (pushLoop_pushed first (pushInit clientInfo docInfo)) as [_ Hd].
    fold st1 in Hd. rewrite Hd. reflexivity. }
  assert (Hinit : pushInit clientInfo' (pr_docInfo r1) =
                  mkPushState (ps_cp st1) (ps_docInfo st1) [] [] []).
  { unfold pushInit. subst r1. unfold pushChanges.
    cbn [pr_docInfo withChanges Pack.Changes]. fold st1.
    rewrite Hid, Hstored. reflexivity. }
  assert (Hloop : pushLoop (pushInit clientInfo docInfo) (first ++ second) =
                  prepend (ps_pushedChanges st1) (ps_visited st1) (ps_log st1)
                    (pushLoop (pushInit clientInfo' (pr_docInfo r1)) second)).
  { rewrite pushLoop_app. fold st1. rewrite (prepend_fresh st1) at 1.
    rewrite pushLoop_prepend, Hinit. reflexivity. }
  subst whole r2. unfold pushChanges at 1 3 5 7.
  cbn [pr_cp pr_docInfo pr_pushedChanges pr_reqChanges withChanges Pack.Changes].
  rewrite Hloop. unfold pushChanges.
  cbn [pr_cp pr_docInfo pr_pushedChanges pr_reqChanges withChanges Pack.Changes prepend
       ps_cp ps_docInfo ps_pushedChanges ps_visited].
  repeat split.
Qed.

(** The batch [1; 2; 2; 4] of a new client, whole and as [1; 2] then [2; 4]. *)
Lemma pushChanges_split_witness :
  let req := Fixture.request (Checkpoint.mk 0 0) [] in
  let whole := pushChanges (Fixture.client (Checkpoint.mk 0 0)) (Fixture.doc 0)
                 (withChanges req (Fixture.change <$> [1; 2; 2; 4])) 0 in
  let r1 := pushChanges (Fixture.client (Checkpoint.mk 0 0)) (Fixture.doc 0)
              (withChanges req (Fixture.change <$> [1; 2])) 0 in
  let r2 := pushChanges (Fixture.client (Checkpoint.mk 2 2)) (pr_docInfo r1)
              (withChanges req (Fixture.change <$> [2; 4])) 2 in
  pr_cp r1 = Checkpoint.mk 2 2
  /\ pr_pushedChanges whole = pr_pushedChanges r1 ++ pr_pushedChanges r2.
Proof.
  cbv zeta. split; [vm_compute; reflexivity|].
  destruct (pushChanges_split (Fixture.client (Checkpoint.mk 0 0))
              (Fixture.client (Checkpoint.mk 2 2)) (Fixture.doc 0)
              (Fixture.request (Checkpoint.mk 0 0) [])
              (Fixture.change <$> [1; 2]) (Fixture.change <$> [2; 4]) 0 0 2)
    as (_ & _ & Hpushed & _).
  - vm_compute. reflexivity.
  - exact Hpushed.
Defined.

(** ** The shape of the accepted list *)

Lemma stampFrom_clientSeq (counter : Z) (changes : list Change.t) :
  Change.ClientSeq <$> stampFrom counter changes = Change.ClientSeq <$> changes.
Proof.
  revert counter. induction changes as [|cn rest IH]; intros counter; [reflexivity|].
  cbn [stampFrom]. rewrite !fmap_cons, IH. reflexivity.
Qed.

Lemma acceptedChanges_ascending (changes : list Change.t) (known : Z) :
  StronglySorted Z.lt (Change.ClientSeq <$> acceptedChanges known changes)
  /\ Forall (fun seq => known < seq) (Change.ClientSeq <$> acceptedChanges known changes).
Proof.
  revert known. induction changes as [|cn rest IH]; intros known.
  - split; constructor.
  - cbn [acceptedChanges].
    destruct (Z.ltb_spec known (Change.ClientSeq cn)) as [Hlt|Hge].
    + rewrite Z.max_r by lia. destruct (IH (Change.ClientSeq cn)) as [Hsorted Hall].
      rewrite fmap_cons. split.
      * constructor; assumption.
      * constructor; [exact Hlt|]. eapply Forall_impl; [exact Hall|].
        intros seq Hseq. simpl in Hseq. lia.
    + rewrite Z.max_l by lia. apply IH.
Qed.

Lemma stampFrom_stamped (counter : Z) (changes : list Change.t) :
  Forall (fun cn => is_Some (Change.ServerSeq cn)) (stampFrom counter changes).
Proof.
  revert counter. induction changes as [|cn rest IH]; intros counter; cbn [stampFrom].
  - constructor.
  - constructor; [eexists; reflexivity|apply IH].
Qed.

(** X4.  The changes a push accepts carry strictly increasing client
    sequence numbers, all above the clientSeq of the checkpoint stored for
    the client, whatever the order of the request. *)
Theorem pushChanges_accepted_ascending
    (clientInfo : ClientInfo.t) (docInfo : DocInfo.t) (reqPack : Pack.t)
    (initialServerSeq : Z) :
  let cp := ClientInfo.Checkpoint clientInfo (DocInfo.ID docInfo) in
  let r := pushChanges clientInfo docInfo reqPack initialServerSeq in
  StronglySorted Z.lt (Change.ClientSeq <$> pr_pushedChanges r)
  /\ Forall (fun cn => Checkpoint.ClientSeq cp < Change.ClientSeq cn) (pr_pushedChanges r)
  /\ Forall (fun cn => is_Some (Change.ServerSeq cn)) (pr_pushedChanges r).
Proof.
  intros cp r.
  pose proof (pushChanges_pushed clientInfo docInfo reqPack initialServerSeq) as Hp.
  cbv zeta in Hp. apply proj1 in Hp. fold cp in Hp. fold r in Hp.
  destruct (acceptedChanges_ascending (Pack.Changes reqPack) (Checkpoint.ClientSeq cp))
    as [Hsorted Hall].
  rewrite <- (stampFrom_clientSeq (DocInfo.ServerSeq docInfo)), <- Hp in Hsorted, Hall.
  split; [exact Hsorted|]. split.
  - rewrite Forall_fmap in Hall. exact Hall.
  - rewrite Hp. apply stampFrom_stamped.
Qed.

Lemma acceptedChanges_all_new (changes : list Change.t) (known : Z) :
  Sorted Z.lt (Change.ClientSeq <$> changes) ->
  Forall (fun cn => known < Change.ClientSeq cn) changes ->
  acceptedChanges known changes = changes.
Proof.
  revert known. induction changes as [|cn rest IH]; intros known Hsorted Hall;
    [reflexivity|].
  rewrite fmap_cons in Hsorted.
  apply Forall_cons in Hall as [Hcn Hrest].
  cbn [acceptedChanges].
  destruct (Z.ltb_spec known (Change.ClientSeq cn)) as [_|Hge]; [|lia].
  f_equal. apply IH.
  - apply Sorted_inv in Hsorted. apply Hsorted.
  - rewrite Z.max_r by lia.
    apply Sorted_StronglySorted in Hsorted; [|intros x y z; lia].
    apply StronglySorted_inv in Hsorted as [_ Hhd].
    rewrite Forall_fmap in Hhd. exact Hhd.
Qed.

(** The loop on a batch of new changes in ascending order: no warning, and
    the request holds exactly the stamped changes. *)
Lemma pushLoop_all_new (changes : list Change.t) (st : PushState) :
  Sorted Z.lt (Change.ClientSeq <$> changes) ->
  Forall (fun cn => Checkpoint.ClientSeq (ps_cp st) < Change.ClientSeq cn) changes ->
  ps_visited (pushLoop st changes) =
    ps_visited st ++ stampFrom (DocInfo.ServerSeq (ps_docInfo st)) changes
  /\ ps_log (pushLoop st changes) = ps_log st.
Proof.
  revert st. induction changes as [|cn rest IH]; intros st Hsorted Hall.
  - simpl. rewrite app_nil_r. split; reflexivity.
  - rewrite fmap_cons in Hsorted. apply Forall_cons in Hall as [Hcn Hrest].
    rewrite pushLoop_cons.
    assert (Hnext : Forall (fun c => Checkpoint.ClientSeq (ps_cp (pushChange st cn))
                                     < Change.ClientSeq c) rest).
    { rewrite pushChange_clientSeq, Z.max_r by lia.
      apply Sorted_StronglySorted in Hsorted; [|intros x y z; lia].
      apply StronglySorted_inv in Hsorted as [_ Hhd].
      rewrite Forall_fmap in Hhd. exact Hhd. }
    apply Sorted_inv in Hsorted as [Hsorted _].
    destruct (IH (pushChange st cn) Hsorted Hnext) as [Hv Hl].
    rewrite Hv, Hl, (pushChange_new st cn Hcn).
    cbn [ps_visited ps_log ps_docInfo DocInfo.ServerSeq stampFrom].
    rewrite <- app_assoc. split; reflexivity.
Qed.

(** X5.  A request whose changes are all new to the client and come in
    ascending client sequence order is accepted in full: every change is
    stamped with the next counter value in turn, the accepted list is the
    request as the call leaves it, and the only line logged is the PUSH
    line. *)
Theorem pushChanges_fresh_batch
    (clientInfo : ClientInfo.t) (docInfo : DocInfo.t) (reqPack : Pack.t)
    (initialServerSeq : Z) :
  let cp := ClientInfo.Checkpoint clientInfo (DocInfo.ID docInfo) in
  let r := pushChanges clientInfo docInfo reqPack initialServerSeq in
  Sorted Z.lt (Change.ClientSeq <$> Pack.Changes reqPack) ->
  Forall (fun cn => Checkpoint.ClientSeq cp < Change.ClientSeq cn) (Pack.Changes reqPack) ->
  pr_pushedChanges r = stampFrom (DocInfo.ServerSeq docInfo) (Pack.Changes reqPack)
  /\ pr_reqChanges r = pr_pushedChanges r
  /\ length (pr_pushedChanges r) = length (Pack.Changes reqPack)
  /\ List.filter isWarning (pr_log r) = [].
Proof.
  intros cp r Hsorted Hall.
  pose proof (pushChanges_pushed clientInfo docInfo reqPack initialServerSeq) as Hp.
  cbv zeta in Hp. apply proj1 in Hp. fold cp in Hp. fold r in Hp.
  rewrite (acceptedChanges_all_new _ _ Hsorted Hall) in Hp.
  destruct (pushLoop_all_new (Pack.Changes reqPack) (pushInit clientInfo docInfo)
              Hsorted Hall) as [Hv Hl].
  split; [exact Hp|]. split; [|split].
  - rewrite Hp. exact Hv.
  - rewrite Hp. apply stampFrom_length.
  - subst r. unfold pushChanges. cbn [pr_log]. rewrite Hl. cbn [pushInit ps_log app].
    destruct (0 <? length (Pack.Changes reqPack))%nat; reflexivity.
Qed.

(** A client known up to 3 sends the changes 4, 5 and 7 to a document at 9. *)
Lemma pushChanges_fresh_batch_witness :
  pr_pushedChanges
    (pushChanges (Fixture.client (Checkpoint.mk 3 9)) (Fixture.doc 9)
       (Fixture.request (Checkpoint.mk 3 9) [4; 5; 7]) 9)
  = [Change.mk 4 "edit" (Some 10); Change.mk 5 "edit" (Some 11);
     Change.mk 7 "edit" (Some 12)].
Proof.
  destruct (pushChanges_fresh_batch (Fixture.client (Checkpoint.mk 3 9)) (Fixture.doc 9)
              (Fixture.request (Checkpoint.mk 3 9) [4; 5; 7]) 9) as (Hpushed & _).
  - repeat constructor.
  - repeat constructor.
  - rewrite Hpushed. vm_compute. reflexivity.
Defined.

(** ** What the push stage logs *)

Lemma filter_isWarning_app (l1 l2 : list Event) :
  List.filter isWarning (l1 ++ l2) = List.filter isWarning l1 ++ List.filter isWarning l2.
Proof. apply List.filter_app. Qed.

Lemma pushLoop_warnings (changes : list Change.t) (st : PushState) :
  (length (ps_log st) + length (ps_pushedChanges st) = length (ps_visited st))%nat
  /\ Forall (fun ev => isWarning ev = true) (ps_log st) ->
  (length (ps_log (pushLoop st changes)) + length (ps_pushedChanges (pushLoop st changes))
     = length (ps_visited (pushLoop st changes)))%nat
  /\ Forall (fun ev => isWarning ev = true) (ps_log (pushLoop st changes)).
Proof.
  revert st. apply pushLoop_invariant with
    (P := fun st =>
            (length (ps_log st) + length (ps_pushedChanges st) = length (ps_visited st))%nat
            /\ Forall (fun ev => isWarning ev = true) (ps_log st)).
  intros st cn [Hlen Hall]. unfold pushChange.
  destruct (Checkpoint.ClientSeq (ps_cp st) <? Change.ClientSeq cn); simpl.
  - rewrite !length_app. simpl. split; [lia|exact Hall].
  - rewrite !length_app. simpl. split; [lia|].
    apply Forall_app. split; [exact Hall|]. repeat constructor.
Qed.

(** X6.  The log of a push accounts for every change of the request: each
    change that is not accepted is logged once at warning level and nothing
    else is logged inside the loop, so warnings and accepted changes add up
    to the size of the request; a request with changes then gets one PUSH
    line, last, which reports the accepted count, the rejected count, the
    counter before (as passed in) and after, and the returned checkpoint. *)
Theorem pushChanges_log_accounting
    (clientInfo : ClientInfo.t) (docInfo : DocInfo.t) (reqPack : Pack.t)
    (initialServerSeq : Z) :
  let r := pushChanges clientInfo docInfo reqPack initialServerSeq in
  let N := length (Pack.Changes reqPack) in
  let K := length (pr_pushedChanges r) in
  (length (List.filter isWarning (pr_log r)) + K = N)%nat
  /\ exists warnings,
       Forall (fun ev => isWarning ev = true) warnings
       /\ pr_log r =
            warnings ++
            match Pack.Changes reqPack with
            | [] => []
            | _ :: _ =>
                [Logged (Infof_PUSH (ClientInfo.ID clientInfo) K
                           (DocInfo.CombinedKey docInfo)
                           (Z.of_nat N - Z.of_nat K) initialServerSeq
                           (DocInfo.ServerSeq (pr_docInfo r)) (pr_cp r))]
            end.
Proof.
  intros r N K.
  destruct (pushLoop_warnings (Pack.Changes reqPack) (pushInit clientInfo docInfo))
    as [Hlen Hall]; [split; [reflexivity|constructor]|].
  destruct (pushLoop_visited (Pack.Changes reqPack) (pushInit clientInfo docInfo))
    as (seen & Hseen & Hseenlen).
  cbn [pushInit ps_visited app] in Hseen. rewrite Hseen, Hseenlen in Hlen.
  set (st := pushLoop (pushInit clientInfo docInfo) (Pack.Changes reqPack)) in *.
  assert (Hfilter : List.filter isWarning (ps_log st) = ps_log st).
  { clear -Hall. induction Hall as [|ev l Hev _ IH]; [reflexivity|].
    cbn [List.filter]. rewrite Hev, IH. reflexivity. }
  assert (Hlog : pr_log r =
            ps_log st ++
            match Pack.Changes reqPack with
            | [] => []
            | _ :: _ =>
                [Logged (Infof_PUSH (ClientInfo.ID clientInfo) K
                           (DocInfo.CombinedKey docInfo)
                           (Z.of_nat N - Z.of_nat K) initialServerSeq
                           (DocInfo.ServerSeq (pr_docInfo r)) (pr_cp r))]
            end).
  { subst r N K. unfold pushChanges. cbn [pr_log pr_pushedChanges pr_docInfo pr_cp].
    fold st. destruct (Pack.Changes reqPack); [|reflexivity].
    cbn [length Nat.ltb Nat.leb]. rewrite app_nil_r. reflexivity. }
  split.
  - rewrite Hlog, filter_isWarning_app, Hfilter, length_app.
    replace (length (List.filter isWarning _)) with 0%nat
      by (destruct (Pack.Changes reqPack); reflexivity).
    subst K N. change (pr_pushedChanges r) with (ps_pushedChanges st). lia.
  - exists (ps_log st). split; [exact Hall|exact Hlog].
Qed.

(** ** The checkpoint and the counter *)

Lemma pushLoop_tracks_counter (changes : list Change.t) (st : PushState) :
  ps_pushedChanges st = [] \/
    Checkpoint.ServerSeq (ps_cp st) = DocInfo.ServerSeq (ps_docInfo st) ->
  ps_pushedChanges (pushLoop st changes) = [] \/
    Checkpoint.ServerSeq (ps_cp (pushLoop st changes)) =
    DocInfo.ServerSeq (ps_docInfo (pushLoop st changes)).
Proof.
  revert st. apply pushLoop_invariant with
    (P := fun st => ps_pushedChanges st = [] \/
            Checkpoint.ServerSeq (ps_cp st) = DocInfo.ServerSeq (ps_docInfo st)).
  intros st cn Hst.
  destruct (Z.lt_ge_cases (Checkpoint.ClientSeq (ps_cp st)) (Change.ClientSeq cn))
    as [Hlt|Hge].
  - rewrite (pushChange_new st cn Hlt). right. reflexivity.
  - rewrite (pushChange_known st cn Hge). exact Hst.
Qed.

Lemma pushChanges_tracks_counter
    (clientInfo : ClientInfo.t) (docInfo : DocInfo.t) (reqPack : Pack.t)
    (initialServerSeq : Z) :
  let cp := ClientInfo.Checkpoint clientInfo (DocInfo.ID docInfo) in
  let r := pushChanges clientInfo docInfo reqPack initialServerSeq in
  match pr_pushedChanges r with
  | [] => pr_cp r = cp /\ pr_docInfo r = docInfo
  | _ :: _ => Checkpoint.ServerSeq (pr_cp r) = DocInfo.ServerSeq (pr_docInfo r)
  end.
Proof.
  intros cp r.
  destruct (pr_pushedChanges r) as [|c0 pushed] eqn:Hpushed.
  - pose proof (pushChanges_pushed clientInfo docInfo reqPack initialServerSeq) as Hp.
    cbv zeta in Hp. destruct Hp as [Hp Hd]. fold cp in Hp, Hd. fold r in Hp, Hd.
    rewrite Hpushed in Hp. symmetry in Hp. apply stampFrom_nil in Hp.
    split.
    + subst r. unfold pushChanges. cbn [pr_cp]. apply acceptedChanges_nil_cp. exact Hp.
    + rewrite Hd, Hp. cbn [length counterAfter]. destruct docInfo; reflexivity.
  - destruct (pushLoop_tracks_counter (Pack.Changes reqPack) (pushInit clientInfo docInfo))
      as [Hnil|Heq]; [left; reflexivity| |exact Heq].
    change (pr_pushedChanges r = []) in Hnil. congruence.
Qed.

(** X8.  After a push that accepted at least one change the returned
    checkpoint's serverSeq is the document's counter as the push left it;
    after a push that accepted none, checkpoint and document record are
    returned as they were.  In both cases the checkpoint's clientSeq has not
    gone down. *)
Theorem pushChanges_checkpoint_tracks_counter
    (clientInfo : ClientInfo.t) (docInfo : DocInfo.t) (reqPack : Pack.t)
    (initialServerSeq : Z) :
  let cp := ClientInfo.Checkpoint clientInfo (DocInfo.ID docInfo) in
  let r := pushChanges clientInfo docInfo reqPack initialServerSeq in
  match pr_pushedChanges r with
  | [] => pr_cp r = cp /\ pr_docInfo r = docInfo
  | _ :: _ => Checkpoint.ServerSeq (pr_cp r) = DocInfo.ServerSeq (pr_docInfo r)
  end
  /\ Checkpoint.ClientSeq cp <= Checkpoint.ClientSeq (pr_cp r).
Proof.
  intros cp r. split.
  - exact (pushChanges_tracks_counter clientInfo docInfo reqPack initialServerSeq).
  - subst r. unfold pushChanges. cbn [pr_cp].
    apply (pushLoop_clientSeq_mono (Pack.Changes reqPack) (pushInit clientInfo docInfo)).
Qed.

(** * Further properties of the pull stage *)

Lemma outcome_bind_inl {A B : Type} (m : M A) (k : A -> M B) (e : error) :
  outcome (bind m k) = inl e <->
  outcome m = inl e \/ exists a, outcome m = inr a /\ outcome (k a) = inl e.
Proof.
  rewrite outcome_bind. destruct (outcome m) as [e'|a].
  - split.
    + intros [= ->]. left. reflexivity.
    + intros [[= ->]|(a & H & _)]; [reflexivity|discriminate].
  - split.
    + intros H. right. exists a. split; [reflexivity|exact H].
    + intros [H|(a' & H & Hk)]; [discriminate|]. injection H as ->. exact Hk.
Qed.

Lemma wrap64_nonneg (z : Z) : 0 <= wrap64 z.
Proof. unfold wrap64, uint64_modulus. apply Z.mod_pos_bound. reflexivity. Qed.

Lemma bind_call_inr {A B : Type} (c : Call) (a : A) (k : A -> M B) :
  bind (call c (inr a)) k = (Called c :: trace (k a), outcome (k a)).
Proof. unfold bind, call. destruct (k a). reflexivity. Qed.

Lemma bind_emit {B : Type} (line : LogLine) (k : unit -> M B) :
  bind (emit line) k = (Logged line :: trace (k tt), outcome (k tt)).
Proof. unfold bind, emit. destruct (k tt). reflexivity. Qed.

Lemma bind_ret {A B : Type} (a : A) (k : A -> M B) : bind (ret a) k = k a.
Proof. unfold bind, ret. destruct (k a). reflexivity. Qed.

Section PullFurther.

Variable InternalDocument : Type.
Variable DocInfo_Key : DocInfo.t -> error + Key.
Variable NewInternalDocumentFromSnapshot :
  Key -> Z -> list byte -> error + InternalDocument.
Variable ApplyChangePack : InternalDocument -> Pack.t -> error + InternalDocument.
Variable ObjectToBytes : InternalDocument -> error + list byte.
Variable logging_Enabled_Debug : bool.

Abbreviation pullSnapshot'' :=
  (pullSnapshot DocInfo_Key NewInternalDocumentFromSnapshot ApplyChangePack
     ObjectToBytes logging_Enabled_Debug).
Abbreviation pullPack'' :=
  (pullPack DocInfo_Key NewInternalDocumentFromSnapshot ApplyChangePack
     ObjectToBytes logging_Enabled_Debug).

Variables (be : Backend.t) (clientInfo : ClientInfo.t) (docInfo : DocInfo.t).
Variables (reqPack : Pack.t) (pushedCP : Checkpoint.t) (initialServerSeq : Z).

(** The range query of the incremental pull and what it is asked. *)
Abbreviation rowsQuery :=
  (DB.FindChangeInfosBetweenServerSeqs (Backend.DB be) (DocInfo.ID docInfo)
     (add64 (Checkpoint.ServerSeq (Pack.Checkpoint reqPack)) 1) initialServerSeq).

Lemma pullChangeInfos_run :
  pullChangeInfos be clientInfo docInfo reqPack pushedCP initialServerSeq =
  let cp := Checkpoint.NextServerSeq pushedCP (DocInfo.ServerSeq docInfo) in
  (Called (CallFindChangeInfosBetweenServerSeqs (DocInfo.ID docInfo)
             (add64 (Checkpoint.ServerSeq (Pack.Checkpoint reqPack)) 1)
             initialServerSeq)
   :: match rowsQuery with
      | inr (first :: rest) =>
          [Logged (Infof_PULL_changes (ClientInfo.ID clientInfo)
                     (length (first :: rest))
                     (ChangeInfo.ServerSeq first)
                     (ChangeInfo.ServerSeq (List.last (first :: rest) first))
                     (DocInfo.CombinedKey docInfo) cp)]
      | _ => []
      end,
   match rowsQuery with
   | inl e => inl e
   | inr rows => inr (cp, rows)
   end).
Proof.
  unfold pullChangeInfos. destruct rowsQuery as [e|[|first rest]]; reflexivity.
Qed.

Lemma pullPack_success (pack : ServerPack.t) :
  outcome (pullPack'' be clientInfo docInfo reqPack pushedCP initialServerSeq) = inr pack ->
  exists docKey,
    DocInfo_Key docInfo = inr docKey
    /\ ServerPack.DocumentKey pack = docKey
    /\ Checkpoint.ServerSeq (Pack.Checkpoint reqPack) <= initialServerSeq
    /\ ServerPack.Checkpoint pack =
         Checkpoint.NextServerSeq pushedCP (DocInfo.ServerSeq docInfo).
Proof.
  intros H. unfold pullPack in H. bind_inr H docKey Hkey.
  exists docKey. split; [exact Hkey|].
  destruct (Z.ltb_spec initialServerSeq (Checkpoint.ServerSeq (Pack.Checkpoint reqPack)))
    as [Hlt|Hge]; [discriminate|].
  destruct (sub64 initialServerSeq (Checkpoint.ServerSeq (Pack.Checkpoint reqPack))
              <? Backend.SnapshotThreshold be).
  - bind_inr H res Hres. destruct res as [cp pulled]. injection H as <-.
    apply pullChangeInfos_result in Hres. destruct Hres as [-> _].
    repeat split. exact Hge.
  - bind_inr H res Hres. destruct res as [cp snapshot]. injection H as <-.
    apply pullSnapshot_result in Hres. subst cp.
    repeat split. exact Hge.
Qed.

(** X11.  [pullPack] hands out a pack only when docInfo.Key() returned a
    key and the request's serverSeq is not ahead of initialServerSeq; the
    pack is labelled with that key. *)
Theorem pullPack_success_inversion (pack : ServerPack.t) :
  outcome (pullPack'' be clientInfo docInfo reqPack pushedCP initialServerSeq) = inr pack ->
  DocInfo_Key docInfo = inr (ServerPack.DocumentKey pack)
  /\ Checkpoint.ServerSeq (Pack.Checkpoint reqPack) <= initialServerSeq.
Proof.
  intros H. destruct (pullPack_success pack H) as (docKey & Hkey & <- & Hle & _).
  split; [exact Hkey|exact Hle].
Qed.

(** X12.  The ways [pullPack] fails, and no others: with the error of
    docInfo.Key(); with the error wrapping [ErrInvalidServerSeq], when the
    key resolved and the request is ahead; with the error of the range
    query, unchanged, on the incremental side of the threshold; with the
    error of [pullSnapshot], unchanged, on the other side. *)
Theorem pullPack_error_sources (e : error) :
  let reqSeq := Checkpoint.ServerSeq (Pack.Checkpoint reqPack) in
  outcome (pullPack'' be clientInfo docInfo reqPack pushedCP initialServerSeq) = inl e <->
  DocInfo_Key docInfo = inl e
  \/ ((exists docKey, DocInfo_Key docInfo = inr docKey)
      /\ ((initialServerSeq < reqSeq
           /\ e = Errorf_serverSeq initialServerSeq reqSeq ErrInvalidServerSeq)
          \/ (reqSeq <= initialServerSeq
              /\ sub64 initialServerSeq reqSeq < Backend.SnapshotThreshold be
              /\ rowsQuery = inl e)
          \/ (reqSeq <= initialServerSeq
              /\ Backend.SnapshotThreshold be <= sub64 initialServerSeq reqSeq
              /\ outcome (pullSnapshot'' be clientInfo docInfo reqPack pushedCP
                            initialServerSeq) = inl e))).
Proof.
  intros reqSeq. unfold pullPack. fold reqSeq.
  destruct (DocInfo_Key docInfo) as [e'|docKey].
  - rewrite bind_lift_inl. cbn [outcome snd]. split.
    + intros [= ->]. left. reflexivity.
    + intros [[= ->]|[[x Hx] _]]; [reflexivity|discriminate].
  - rewrite bind_lift_inr.
    destruct (Z.ltb_spec initialServerSeq reqSeq) as [Hlt|Hge].
    { cbn [fail outcome snd]. split.
      - intros [= <-]. right. split; [eexists; reflexivity|]. left. split; [exact Hlt|reflexivity].
      - intros [H|[_ [[_ ->]|[[Hle _]|[Hle _]]]]]; [discriminate|reflexivity|lia|lia]. }
    destruct (Z.ltb_spec (sub64 initialServerSeq reqSeq) (Backend.SnapshotThreshold be))
      as [Hgap|Hgap].
    + rewrite outcome_bind_inl, pullChangeInfos_run. cbn [outcome snd]. split.
      * intros [H|(res & H & Hk)].
        -- right. split; [eexists; reflexivity|]. right. left.
           unfold reqSeq in *.
           destruct rowsQuery as [e0|rows]; [|discriminate]. injection H as ->.
           split; [exact Hge|]. split; [exact Hgap|reflexivity].
        -- destruct res. discriminate Hk.
      * intros [H|[_ [[Hlt _]|[(_ & _ & Hq)|(_ & Hge' & _)]]]]; [discriminate|lia| |lia].
        left. unfold reqSeq in Hq. rewrite Hq. reflexivity.
    + rewrite outcome_bind_inl. split.
      * intros [H|(res & H & Hk)].
        -- right. split; [eexists; reflexivity|]. right. right.
           split; [exact Hge|]. split; [exact Hgap|exact H].
        -- destruct res. discriminate Hk.
      * intros [H|[_ [[Hlt _]|[(_ & Hlt & _)|(_ & _ & Hs)]]]]; [discriminate|lia|lia|].
        left. exact Hs.
Qed.

(** X13.  The incremental pull end to end.  For a request that is not
    ahead, below the threshold, with the key resolved, [pullPack] makes the
    single range query (request serverSeq + 1, initialServerSeq); an error
    of the store comes back unchanged with nothing logged; otherwise the
    pack carries that key, the rows as returned and no snapshot, and the
    PULL line is logged only when there are rows, with the server sequence
    numbers of the first and the last row. *)
Theorem pullPack_incremental_result (docKey : Key) :
  DocInfo_Key docInfo = inr docKey ->
  is_uint64 initialServerSeq ->
  is_uint64 (Checkpoint.ServerSeq (Pack.Checkpoint reqPack)) ->
  Checkpoint.ServerSeq (Pack.Checkpoint reqPack) <= initialServerSeq ->
  initialServerSeq - Checkpoint.ServerSeq (Pack.Checkpoint reqPack)
    < Backend.SnapshotThreshold be ->
  let cp := Checkpoint.NextServerSeq pushedCP (DocInfo.ServerSeq docInfo) in
  pullPack'' be clientInfo docInfo reqPack pushedCP initialServerSeq =
  (Called (CallFindChangeInfosBetweenServerSeqs (DocInfo.ID docInfo)
             (add64 (Checkpoint.ServerSeq (Pack.Checkpoint reqPack)) 1)
             initialServerSeq)
   :: match rowsQuery with
      | inr (first :: rest) =>
          [Logged (Infof_PULL_changes (ClientInfo.ID clientInfo)
                     (length (first :: rest))
                     (ChangeInfo.ServerSeq first)
                     (ChangeInfo.ServerSeq (List.last (first :: rest) first))
                     (DocInfo.CombinedKey docInfo) cp)]
      | _ => []
      end,
   match rowsQuery with
   | inl e => inl e
   | inr rows => inr (NewServerPack docKey cp rows [])
   end).
Proof.
  intros Hkey Hinit Hreq Hle Hgap cp.
  rewrite (pullPack_with_key _ _ _ _ _ _ _ _ _ _ _ _ docKey Hkey).
  rewrite (sub64_ordered _ _ Hinit Hreq Hle).
  destruct (Z.ltb_spec initialServerSeq (Checkpoint.ServerSeq (Pack.Checkpoint reqPack)))
    as [Hlt|_]; [lia|].
  destruct (Z.ltb_spec (initialServerSeq - Checkpoint.ServerSeq (Pack.Checkpoint reqPack))
              (Backend.SnapshotThreshold be)) as [_|Hge]; [|lia].
  rewrite pullChangeInfos_run. fold cp.
  destruct rowsQuery as [e|[|first rest]]; reflexivity.
Qed.

(** X10.  With the snapshot threshold at 0 no pull is incremental: every
    request that passes the serverSeq check, a client that is up to date
    included, is answered on the snapshot path. *)
Theorem pullPack_zero_threshold (docKey : Key) :
  DocInfo_Key docInfo = inr docKey ->
  Checkpoint.ServerSeq (Pack.Checkpoint reqPack) <= initialServerSeq ->
  Backend.SnapshotThreshold be = 0 ->
  takenPath (trace (pullPack'' be clientInfo docInfo reqPack pushedCP initialServerSeq))
    = Some SnapshotPath.
Proof.
  intros Hkey Hle Hzero.
  rewrite (pullPack_with_key _ _ _ _ _ _ _ _ _ _ _ _ docKey Hkey).
  destruct (Z.ltb_spec initialServerSeq (Checkpoint.ServerSeq (Pack.Checkpoint reqPack)))
    as [Hlt|_]; [lia|].
  pose proof (wrap64_nonneg (initialServerSeq
                             - Checkpoint.ServerSeq (Pack.Checkpoint reqPack))) as Hpos.
  fold (sub64 initialServerSeq (Checkpoint.ServerSeq (Pack.Checkpoint reqPack))) in Hpos.
  destruct (Z.ltb_spec (sub64 initialServerSeq
                          (Checkpoint.ServerSeq (Pack.Checkpoint reqPack)))
              (Backend.SnapshotThreshold be)) as [Hlt|_]; [lia|].
  apply pullPack_snapshot_path.
Qed.

(** X14.  The reconstruction path of [pullSnapshot].  When the stored
    snapshot is older than initialServerSeq and every collaborator answers,
    the bytes returned are the serialisation of the document instantiated
    from the stored snapshot at its server sequence, after one change pack
    holding the changes of the range (snapshot serverSeq + 1,
    initialServerSeq) has been applied to it; the calls are made in that
    order, each once, and the PULL line is logged before serialising. *)
Theorem pullSnapshot_reconstruction
    (info : SnapshotInfo.t) (docKey : Key) (doc doc' : InternalDocument)
    (changes : list Change.t) (bytes : list byte) :
  let from := add64 (SnapshotInfo.ServerSeq info) 1 in
  let replay :=
    Pack.mk docKey
      (Checkpoint.NextServerSeq Checkpoint.Initial (DocInfo.ServerSeq docInfo))
      changes [] in
  let cp := Checkpoint.NextServerSeq pushedCP (DocInfo.ServerSeq docInfo) in
  DB.FindLastSnapshotInfo (Backend.DB be) (DocInfo.ID docInfo) = inr info ->
  SnapshotInfo.ServerSeq info < initialServerSeq ->
  DocInfo_Key docInfo = inr docKey ->
  NewInternalDocumentFromSnapshot docKey (SnapshotInfo.ServerSeq info)
    (SnapshotInfo.Snapshot info) = inr doc ->
  DB.FindChangesBetweenServerSeqs (Backend.DB be) (DocInfo.ID docInfo) from
    initialServerSeq = inr changes ->
  ApplyChangePack doc replay = inr doc' ->
  ObjectToBytes doc' = inr bytes ->
  pullSnapshot'' be clientInfo docInfo reqPack pushedCP initialServerSeq =
  ([Called (CallFindLastSnapshotInfo (DocInfo.ID docInfo));
    Called (CallNewInternalDocumentFromSnapshot docKey (SnapshotInfo.ServerSeq info)
              (SnapshotInfo.Snapshot info));
    Called (CallFindChangesBetweenServerSeqs (DocInfo.ID docInfo) from initialServerSeq);
    Called (CallApplyChangePack replay)]
   ++ (if logging_Enabled_Debug
       then [Logged (Debugf_after_apply (length (Pack.Changes reqPack)))]
       else [])
   ++ [Logged (Infof_PULL_snapshot_with_changes (ClientInfo.ID clientInfo)
                 (add64 (Checkpoint.ServerSeq (Pack.Checkpoint reqPack)) 1)
                 initialServerSeq (DocInfo.CombinedKey docInfo) cp);
       Called CallObjectToBytes],
   inr (cp, bytes)).
Proof.
  intros from replay cp Hfind Hold Hkey Hnew Hchanges Happly Hbytes.
  unfold pullSnapshot. rewrite Hfind, bind_call_inr.
  destruct (Z.leb_spec initialServerSeq (SnapshotInfo.ServerSeq info)) as [Hle|_]; [lia|].
  rewrite Hkey, bind_lift_inr, Hnew, bind_call_inr. fold from.
  rewrite Hchanges, bind_call_inr. fold replay. rewrite Happly, bind_call_inr.
  fold cp. destruct logging_Enabled_Debug.
  - rewrite !bind_emit, Hbytes, bind_call_inr. reflexivity.
  - rewrite bind_ret, bind_emit, Hbytes, bind_call_inr. reflexivity.
Qed.

(** X15.  [pullSnapshot] fails only with the error of one of its
    collaborators, passed on unchanged, and the steps fail in order: the
    snapshot lookup; then, only when the stored snapshot is older than
    initialServerSeq, docInfo.Key(), the instantiation from the snapshot,
    the range query, the replay, the serialisation.  Once the lookup has
    succeeded the fast path cannot fail. *)
Theorem pullSnapshot_error_sources (e : error) :
  outcome (pullSnapshot'' be clientInfo docInfo reqPack pushedCP initialServerSeq) = inl e ->
  DB.FindLastSnapshotInfo (Backend.DB be) (DocInfo.ID docInfo) = inl e
  \/ exists info,
       DB.FindLastSnapshotInfo (Backend.DB be) (DocInfo.ID docInfo) = inr info
       /\ SnapshotInfo.ServerSeq info < initialServerSeq
       /\ (DocInfo_Key docInfo = inl e
           \/ exists docKey,
                DocInfo_Key docInfo = inr docKey
                /\ (NewInternalDocumentFromSnapshot docKey (SnapshotInfo.ServerSeq info)
                      (SnapshotInfo.Snapshot info) = inl e
                    \/ exists doc,
                         NewInternalDocumentFromSnapshot docKey
                           (SnapshotInfo.ServerSeq info) (SnapshotInfo.Snapshot info)
                           = inr doc
                         /\ (DB.FindChangesBetweenServerSeqs (Backend.DB be)
                               (DocInfo.ID docInfo)
                               (add64 (SnapshotInfo.ServerSeq info) 1) initialServerSeq
                               = inl e
                             \/ exists changes,
                                  DB.FindChangesBetweenServerSeqs (Backend.DB be)
                                    (DocInfo.ID docInfo)
                                    (add64 (SnapshotInfo.ServerSeq info) 1)
                                    initialServerSeq = inr changes
                                  /\ (ApplyChangePack doc
                                        (Pack.mk docKey
                                           (Checkpoint.NextServerSeq Checkpoint.Initial
                                              (DocInfo.ServerSeq docInfo))
                                           changes []) = inl e
                                      \/ exists doc',
                                           ApplyChangePack doc
                                             (Pack.mk docKey
                                                (Checkpoint.NextServerSeq
                                                   Checkpoint.Initial
                                                   (DocInfo.ServerSeq docInfo))
                                                changes []) = inr doc'
                                           /\ ObjectToBytes doc' = inl e)))).
Proof.
  unfold pullSnapshot. intros H.
  apply outcome_bind_inl in H as [H|(info & Hinfo & H)]; [left; exact H|].
  right. exists info. split; [exact Hinfo|].
  destruct (Z.leb_spec initialServerSeq (SnapshotInfo.ServerSeq info)) as [Hle|Hold].
  { apply outcome_bind_inl in H as [H|(u & _ & H)]; discriminate. }
  split; [exact Hold|].
  apply outcome_bind_inl in H as [H|(docKey & Hkey & H)]; [left; exact H|].
  right. exists docKey. split; [exact Hkey|].
  apply outcome_bind_inl in H as [H|(doc & Hdoc & H)]; [left; exact H|].
  right. exists doc. split; [exact Hdoc|].
  apply outcome_bind_inl in H as [H|(changes & Hchanges & H)]; [left; exact H|].
  right. exists changes. split; [exact Hchanges|].
  apply outcome_bind_inl in H as [H|(doc' & Hdoc' & H)]; [left; exact H|].
  right. exists doc'. split; [exact Hdoc'|].
  apply outcome_bind_inl in H as [H|(u & _ & H)].
  { destruct logging_Enabled_Debug; discriminate. }
  apply outcome_bind_inl in H as [H|(u' & _ & H)]; [discriminate|].
  apply outcome_bind_inl in H as [H|(bytes & _ & H)]; [exact H|discriminate].
Qed.

End PullFurther.

(** * Push, then pull *)

Section PushThenPull.

Variable InternalDocument : Type.
Variable DocInfo_Key : DocInfo.t -> error + Key.
Variable NewInternalDocumentFromSnapshot :
  Key -> Z -> list byte -> error + InternalDocument.
Variable ApplyChangePack : InternalDocument -> Pack.t -> error + InternalDocument.
Variable ObjectToBytes : InternalDocument -> error + list byte.
Variable logging_Enabled_Debug : bool.

Variables (be : Backend.t) (clientInfo : ClientInfo.t) (docInfo : DocInfo.t).
Variables (reqPack : Pack.t) (initialServerSeq : Z).

(** X9.  The two stages of one request, run one after the other on the
    same document record.  If initialServerSeq is the document's counter
    before the push, the counter does not overflow, and the push accepts K
    changes, then a pull that succeeds returns a checkpoint whose serverSeq
    is initialServerSeq + K and whose clientSeq is the pushed checkpoint's;
    when K >= 1 it is the pushed checkpoint itself: the pull does not move
    it. *)
Theorem push_then_pull_checkpoint (pack : ServerPack.t) :
  let pushed := pushChanges clientInfo docInfo reqPack initialServerSeq in
  let K := Z.of_nat (length (pr_pushedChanges pushed)) in
  DocInfo.ServerSeq docInfo = initialServerSeq ->
  0 <= initialServerSeq ->
  initialServerSeq + K < uint64_modulus ->
  outcome (pullPack DocInfo_Key NewInternalDocumentFromSnapshot ApplyChangePack
             ObjectToBytes logging_Enabled_Debug be clientInfo (pr_docInfo pushed)
             (withChanges reqPack (pr_reqChanges pushed)) (pr_cp pushed)
             initialServerSeq) = inr pack ->
  Checkpoint.ServerSeq (ServerPack.Checkpoint pack) = initialServerSeq + K
  /\ Checkpoint.ClientSeq (ServerPack.Checkpoint pack) = Checkpoint.ClientSeq (pr_cp pushed)
  /\ match pr_pushedChanges pushed with
     | [] => True
     | _ :: _ => ServerPack.Checkpoint pack = pr_cp pushed
     end.
Proof.
  intros pushed K Hinit H0 Hmax Hpull.
  apply pullPack_success in Hpull. destruct Hpull as (docKey & _ & _ & _ & Hcp).
  pose proof (pushChanges_pushed clientInfo docInfo reqPack initialServerSeq) as Hpd.
  cbv zeta in Hpd. destruct Hpd as [Hp Hd]. fold pushed in Hp, Hd.
  assert (HK : K = Z.of_nat (length (acceptedChanges
                 (Checkpoint.ClientSeq (ClientInfo.Checkpoint clientInfo
                    (DocInfo.ID docInfo))) (Pack.Changes reqPack)))).
  { subst K. rewrite Hp, stampFrom_length. reflexivity. }
  rewrite Hinit in Hd.
  destruct (stampFrom_consecutive
              (acceptedChanges (Checkpoint.ClientSeq
                 (ClientInfo.Checkpoint clientInfo (DocInfo.ID docInfo)))
                 (Pack.Changes reqPack)) initialServerSeq H0) as [_ Hc]; [lia|].
  rewrite <- HK in Hc.
  rewrite Hcp. cbn [Checkpoint.NextServerSeq Checkpoint.ServerSeq Checkpoint.ClientSeq].
  split; [rewrite Hd; cbn [DocInfo.ServerSeq]; exact Hc|]. split; [reflexivity|].
  pose proof (pushChanges_tracks_counter clientInfo docInfo reqPack initialServerSeq) as Ht.
  cbv zeta in Ht. fold pushed in Ht.
  destruct (pr_pushedChanges pushed); [exact I|].
  rewrite <- Ht. destruct (pr_cp pushed); reflexivity.
Qed.

End PushThenPull.

(** A new client pushes [1; 2] to a document at 5 and pulls what it missed. *)
Lemma push_then_pull_checkpoint_witness :
  let cp := Checkpoint.mk 0 3 in
  let pushed := pushChanges (Fixture.client cp) (Fixture.doc 5)
                  (Fixture.request cp [1; 2]) 5 in
  let pack := ServerPack.mk "notes$doc-1" (Checkpoint.mk 2 7) (Fixture.row <$> [4; 5]) [] in
  outcome (Fixture.pullPack (Fixture.backend 100) (Fixture.client cp) (pr_docInfo pushed)
             (withChanges (Fixture.request cp [1; 2]) (pr_reqChanges pushed))
             (pr_cp pushed) 5) = inr pack
  /\ Checkpoint.ServerSeq (ServerPack.Checkpoint pack) = 5 + 2.
Proof.
  cbv zeta.
  assert (Hrun : outcome (Fixture.pullPack (Fixture.backend 100)
             (Fixture.client (Checkpoint.mk 0 3))
             (pr_docInfo (pushChanges (Fixture.client (Checkpoint.mk 0 3)) (Fixture.doc 5)
                            (Fixture.request (Checkpoint.mk 0 3) [1; 2]) 5))
             (withChanges (Fixture.request (Checkpoint.mk 0 3) [1; 2])
                (pr_reqChanges (pushChanges (Fixture.client (Checkpoint.mk 0 3))
                                  (Fixture.doc 5)
                                  (Fixture.request (Checkpoint.mk 0 3) [1; 2]) 5)))
             (pr_cp (pushChanges (Fixture.client (Checkpoint.mk 0 3)) (Fixture.doc 5)
                       (Fixture.request (Checkpoint.mk 0 3) [1; 2]) 5)) 5)
           = inr (ServerPack.mk "notes$doc-1" (Checkpoint.mk 2 7)
                    (Fixture.row <$> [4; 5]) []))
    by (vm_compute; reflexivity).
  split; [exact Hrun|].
  refine (proj1 (@push_then_pull_checkpoint Fixture.Doc Fixture.keyOf Fixture.fromSnapshot
            Fixture.apply Fixture.toBytes false (Fixture.backend 100)
            (Fixture.client (Checkpoint.mk 0 3)) (Fixture.doc 5)
            (Fixture.request (Checkpoint.mk 0 3) [1; 2]) 5 _ eq_refl _ _ Hrun)).
  - vm_compute. discriminate.
  - vm_compute. reflexivity.
Defined.

(** ** The pull stage on the concrete store, continued *)

Lemma pullPack_success_inversion_witness :
  Fixture.keyOf (Fixture.doc 5) = inr "notes$doc-1"
  /\ Checkpoint.ServerSeq (Pack.Checkpoint (Fixture.request (Checkpoint.mk 0 2) [])) <= 5.
Proof.
  refine (@pullPack_success_inversion Fixture.Doc Fixture.keyOf Fixture.fromSnapshot
            Fixture.apply Fixture.toBytes false (Fixture.backend 100)
            (Fixture.client (Checkpoint.mk 0 2)) (Fixture.doc 5)
            (Fixture.request (Checkpoint.mk 0 2) []) (Checkpoint.mk 0 2) 5
            (ServerPack.mk "notes$doc-1" (Checkpoint.mk 0 5) (Fixture.row <$> [3; 4; 5]) [])
            _).
  vm_compute. reflexivity.
Defined.

(** A client at serverSeq 3 of a document at 5, threshold 100: rows 4 and 5. *)
Lemma pullPack_incremental_result_witness :
  outcome (Fixture.pullPack (Fixture.backend 100) (Fixture.client (Checkpoint.mk 0 3))
             (Fixture.doc 5) (Fixture.request (Checkpoint.mk 0 3) []) (Checkpoint.mk 0 3) 5)
  = inr (ServerPack.mk "notes$doc-1" (Checkpoint.mk 0 5) (Fixture.row <$> [4; 5]) []).
Proof.
  refine (f_equal snd
    (@pullPack_incremental_result Fixture.Doc Fixture.keyOf Fixture.fromSnapshot
       Fixture.apply Fixture.toBytes false (Fixture.backend 100)
       (Fixture.client (Checkpoint.mk 0 3)) (Fixture.doc 5)
       (Fixture.request (Checkpoint.mk 0 3) []) (Checkpoint.mk 0 3) 5
       "notes$doc-1" eq_refl _ _ _ _));
    vm_compute; try split; congruence.
Defined.

(** An up-to-date client of a server whose threshold is 0. *)
Lemma pullPack_zero_threshold_witness :
  takenPath (trace (Fixture.pullPack (Fixture.backend 0)
                      (Fixture.client (Checkpoint.mk 0 5)) (Fixture.doc 5)
                      (Fixture.request (Checkpoint.mk 0 5) []) (Checkpoint.mk 0 5) 5))
  = Some SnapshotPath.
Proof.
  refine (@pullPack_zero_threshold Fixture.Doc Fixture.keyOf Fixture.fromSnapshot
            Fixture.apply Fixture.toBytes false (Fixture.backend 0)
            (Fixture.client (Checkpoint.mk 0 5)) (Fixture.doc 5)
            (Fixture.request (Checkpoint.mk 0 5) []) (Checkpoint.mk 0 5) 5
            "notes$doc-1" eq_refl _ eq_refl).
  vm_compute. discriminate.
Defined.

(** The stored snapshot is at 2, initialServerSeq is 5: changes 3 to 5 are
    replayed on it. *)
Lemma pullSnapshot_reconstruction_witness :
  outcome (Fixture.pullSnapshot (Fixture.backend 0) (Fixture.client (Checkpoint.mk 0 0))
             (Fixture.doc 5) (Fixture.request (Checkpoint.mk 0 0) []) (Checkpoint.mk 0 0) 5)
  = inr (Checkpoint.mk 0 5, [x0a; x0b; x01; x01; x01]).
Proof.
  refine (f_equal snd
    (@pullSnapshot_reconstruction Fixture.Doc Fixture.keyOf Fixture.fromSnapshot
       Fixture.apply Fixture.toBytes false (Fixture.backend 0)
       (Fixture.client (Checkpoint.mk 0 0)) (Fixture.doc 5)
       (Fixture.request (Checkpoint.mk 0 0) []) (Checkpoint.mk 0 0) 5
       (SnapshotInfo.mk 2 [x0a; x0b]) "notes$doc-1" [x0a; x0b]
       [x0a; x0b; x01; x01; x01] (Fixture.stored <$> [3; 4; 5])
       [x0a; x0b; x01; x01; x01] _ _ _ _ _ _ _));
    vm_compute; reflexivity.
Defined.

(** A store whose snapshot lookup fails. *)
Lemma pullSnapshot_error_sources_witness :
  let down := ErrExternal "store down" in
  let db := DB.mk (fun _ _ _ => inr []) (fun _ => inl down) (fun _ _ _ => inr []) in
  outcome (Fixture.pullSnapshot (Backend.mk 0 db) (Fixture.client (Checkpoint.mk 0 0))
             (Fixture.doc 5) (Fixture.request (Checkpoint.mk 0 0) []) (Checkpoint.mk 0 0) 5)
    = inl down
  /\ DB.FindLastSnapshotInfo db (DocInfo.ID (Fixture.doc 5)) = inl down.
Proof.
  cbv zeta. split; [reflexivity|].
  destruct (@pullSnapshot_error_sources Fixture.Doc Fixture.keyOf Fixture.fromSnapshot
              Fixture.apply Fixture.toBytes false
              (Backend.mk 0 (DB.mk (fun _ _ _ => inr [])
                               (fun _ => inl (ErrExternal "store down"))
                               (fun _ _ _ => inr [])))
              (Fixture.client (Checkpoint.mk 0 0)) (Fixture.doc 5)
              (Fixture.request (Checkpoint.mk 0 0) []) (Checkpoint.mk 0 0) 5
              (ErrExternal "store down") eq_refl) as [H|(info & H & _)].
  - exact H.
  - discriminate H.
Defined.
